(** * Car-Crash-Analysis: a shallow embedding of [car_crash_analysis.py]

    The program loads six CSV tables into data frames, runs eight fixed
    analyses over them, accumulates one labelled entry per analysis in
    [self._output] and writes that text to the configured output path.

    Layout of this development:
    - [Py]      : the Python values the analyses produce, their rendering by
                  [str.format], and the exceptions that can travel;
    - [Sql]     : the three-valued column predicates and the relational
                  operators of the data-frame substrate, as a sequential
                  reference semantics;
    - [Person], [Unit], ... : the rows of the six relations;
    - the class [CarCrashAnalysis], its eight analyses, the report sink
      and [execute_analysis], in a small state-and-exception monad;
    - the theorems. *)

From Stdlib Require Import List String Ascii ZArith Lia Bool Arith.
From Stdlib Require Import Sorted Permutation DecimalString.
Import ListNotations.
Local Open Scope string_scope.

(* ------------------------------------------------------------------ *)
(** ** Python values and their rendering *)

Module Py.

(** Exceptions, all of them subclasses of [Exception].  The two Spark
    classes carry their [desc]; the others carry [str(e)]. *)
Inductive exn : Type :=
| IndexError (msg : string)
| TypeError (msg : string)
| AttributeError (msg : string)
| OSError (msg : string)
| AnalysisException (desc : string)
| IllegalArgumentException (desc : string).

(** [str(e)] *)
Definition exn_str (e : exn) : string :=
  match e with
  | IndexError m | TypeError m | AttributeError m | OSError m => m
  | AnalysisException d | IllegalArgumentException d => d
  end.

(** A cell of a collected [Row]: SQL NULL arrives as [None], a text
    column as [str], a [count] aggregate as [int]. *)
Inductive cell : Type :=
| CNone
| CStr (s : string)
| CInt (z : Z).

(** A collected [Row]: its field names with their cells, in order. *)
Definition Row : Type := list (string * cell).

(** What an analysis hands to [format(res=...)]: the [int] of
    [DataFrame.count()], one [Row] ([collect()[0]]) or the list of
    [Row]s of [collect()]. *)
Inductive value : Type :=
| VInt (z : Z)
| VRow (r : Row)
| VList (rs : list Row).

Definition newline : ascii := ascii_of_nat 10.
Definition dquote : ascii := ascii_of_nat 34.
Definition NL : string := String newline EmptyString.

(** [str(int)] *)
Definition str_int (z : Z) : string := NilZero.string_of_int (Z.to_int z).

Definition hex_digit (n : nat) : ascii :=
  nth n (list_ascii_of_string "0123456789abcdef") "0"%char.

Fixpoint contains_char (c : ascii) (s : string) : bool :=
  match s with
  | EmptyString => false
  | String d s' => Ascii.eqb c d || contains_char c s'
  end.

(** The quote [repr] picks: the double quote only when the text holds a
    single quote and no double quote. *)
Definition repr_quote (s : string) : ascii :=
  if contains_char "'"%char s && negb (contains_char dquote s)
  then dquote else "'"%char.

(** One character of [repr(str)].  Strings are byte sequences here (the
    UTF-8 of the text); bytes from 128 up belong to non-ASCII characters
    and are copied. *)
Definition repr_char (q c : ascii) : string :=
  let n := nat_of_ascii c in
  if Ascii.eqb c q || Ascii.eqb c "\"%char then String "\"%char (String c EmptyString)
  else if (n =? 9)%nat then "\t"
  else if (n =? 10)%nat then "\n"
  else if (n =? 13)%nat then "\r"
  else if (n <? 32)%nat || (n =? 127)%nat
       then "\x" ++ String (hex_digit (n / 16)) (String (hex_digit (n mod 16)) EmptyString)
  else String c EmptyString.

Fixpoint repr_body (q : ascii) (s : string) : string :=
  match s with
  | EmptyString => EmptyString
  | String c s' => repr_char q c ++ repr_body q s'
  end.

(** [repr(str)] *)
Definition repr_str (s : string) : string :=
  let q := repr_quote s in
  String q (repr_body q s ++ String q EmptyString).

(** [repr] of a cell, the [%r] of [Row.__repr__]. *)
Definition repr_cell (c : cell) : string :=
  match c with
  | CNone => "None"
  | CStr s => repr_str s
  | CInt z => str_int z
  end.

(** [", ".join(parts)] *)
Fixpoint join_comma (parts : list string) : string :=
  match parts with
  | [] => EmptyString
  | [p] => p
  | p :: rest => p ++ ", " ++ join_comma rest
  end.

(** [Row.__repr__]: ["Row(%s)" % ", ".join("%s=%r" % (k, v) ...)] *)
Definition repr_row (r : Row) : string :=
  "Row(" ++ join_comma (map (fun kv => fst kv ++ "=" ++ repr_cell (snd kv)) r) ++ ")".

(** [repr(list)] *)
Definition repr_list (rs : list Row) : string :=
  "[" ++ join_comma (map repr_row rs) ++ "]".

(** ["{res}".format(res=v)]: [str(v)], which for a [Row] and for a list
    is its [repr]. *)
Definition format_res (v : value) : string :=
  match v with
  | VInt z => str_int z
  | VRow r => repr_row r
  | VList rs => repr_list rs
  end.

(** The number of newline characters of a text, that is the number of
    newline-terminated lines it holds. *)
Fixpoint count_newlines (s : string) : nat :=
  match s with
  | EmptyString => 0
  | String c s' => (if Ascii.eqb c newline then 1 else 0) + count_newlines s'
  end.

(** [s.split("\n")] without the empty piece after a final newline: the
    lines of a text, terminators removed. *)
Fixpoint lines_from (cur : string) (s : string) : list string :=
  match s with
  | EmptyString => match cur with EmptyString => [] | _ => [cur] end
  | String c s' =>
      if Ascii.eqb c newline then cur :: lines_from EmptyString s'
      else lines_from (cur ++ String c EmptyString) s'
  end.

Definition lines (s : string) : list string := lines_from EmptyString s.

(** A text without a line break, and values whose field names are such
    texts. *)
Definition plain (s : string) : Prop := count_newlines s = 0.

Definition plain_row (r : Row) : Prop := Forall (fun kv => plain (fst kv)) r.

Definition plain_value (v : value) : Prop :=
  match v with
  | VInt _ => True
  | VRow r => plain_row r
  | VList rs => Forall plain_row rs
  end.

End Py.

(* ------------------------------------------------------------------ *)
(** ** The data-frame substrate

    Columns read from CSV with [header=True] are text and nullable, so a
    cell is an [option string] ([None] is SQL NULL) and a column predicate
    is three-valued.  The operators below are the sequential reference
    semantics of the data-frame calls the program makes: a group appears
    where its key is first met, sorting is stable, a join enumerates the
    left relation and, for each of its rows, the matching right rows in
    order. *)

Module Sql.

(** SQL [AND], [OR], [NOT] (the [&], [|], [~] of columns). *)
Definition and3 (a b : option bool) : option bool :=
  match a, b with
  | Some false, _ | _, Some false => Some false
  | Some true, Some true => Some true
  | _, _ => None
  end.

Definition or3 (a b : option bool) : option bool :=
  match a, b with
  | Some true, _ | _, Some true => Some true
  | Some false, Some false => Some false
  | _, _ => None
  end.

Definition not3 (a : option bool) : option bool := option_map negb a.

(** [col == "lit"] and [col != "lit"] *)
Definition eq_lit (c : option string) (lit : string) : option bool :=
  option_map (fun s => String.eqb s lit) c.

Definition neq_lit (c : option string) (lit : string) : option bool :=
  option_map (fun s => negb (String.eqb s lit)) c.

(** [col > lit] on a coerced column *)
Definition gt_lit (c : option Z) (lit : Z) : option bool :=
  option_map (fun z => (lit <? z)%Z) c.

(** [a + b] on coerced columns *)
Definition add (a b : option Z) : option Z :=
  match a, b with
  | Some x, Some y => Some (x + y)%Z
  | _, _ => None
  end.

(** Equality of two cells as grouping keys: NULLs form one group. *)
Definition cell_eqb (a b : option string) : bool :=
  match a, b with
  | Some x, Some y => String.eqb x y
  | None, None => true
  | _, _ => false
  end.

(** [col.isin(vals)]: NULL for a NULL cell, true on a match, otherwise
    NULL when the list holds a NULL and false when it does not. *)
Definition isin (c : option string) (vals : list (option string)) : option bool :=
  match c with
  | None => None
  | Some s =>
      if existsb (cell_eqb (Some s)) vals then Some true
      else if existsb (cell_eqb None) vals then None
      else Some false
  end.

(** [col.contains(sub)] *)
Fixpoint is_substring (sub s : string) : bool :=
  String.prefix sub s ||
  match s with
  | EmptyString => false
  | String _ s' => is_substring sub s'
  end.

Definition contains (c : option string) (sub : string) : option bool :=
  option_map (is_substring sub) c.

(** [col.isNull()] and [col.between(lo, hi)] on a row number *)
Definition isNull {A} (c : option A) : option bool :=
  Some (match c with None => true | Some _ => false end).

Definition between (n lo hi : nat) : bool := (lo <=? n)%nat && (n <=? hi)%nat.

Definition holds (b : option bool) : bool :=
  match b with Some true => true | _ => false end.

(** [df.filter(cond)] / [df.where(cond)]: the rows where [cond] is true. *)
Definition where_ {R} (cond : R -> option bool) (rows : list R) : list R :=
  filter (fun r => holds (cond r)) rows.

(** [df.count()] *)
Definition count {R} (rows : list R) : Z := Z.of_nat (List.length rows).

(** [df.limit(n)] *)
Definition limit {R} (n : nat) (rows : list R) : list R := firstn n rows.

(** [df.groupBy(key).agg(count(col))]: one row per distinct key, in the
    order the keys are first met, with the number of rows of the group
    whose [col] is not NULL. *)
Fixpoint bump {K} (eqb : K -> K -> bool) (k : K) (inc : Z) (groups : list (K * Z))
  : list (K * Z) :=
  match groups with
  | [] => [(k, inc)]
  | (k', n) :: rest =>
      if eqb k k' then (k', (n + inc)%Z) :: rest
      else (k', n) :: bump eqb k inc rest
  end.

Definition group_count {R K} (eqb : K -> K -> bool) (key : R -> K)
           (counted : R -> bool) (rows : list R) : list (K * Z) :=
  fold_left (fun groups r => bump eqb (key r) (if counted r then 1%Z else 0%Z) groups)
            rows [].

Definition not_null {A} (c : option A) : bool :=
  match c with Some _ => true | None => false end.

(** Descending order of a sort key, NULLs last: [above a b] when [a]
    sorts strictly before [b]. *)
Definition above (a b : option Z) : bool :=
  match a, b with
  | Some x, Some y => (y <? x)%Z
  | Some _, None => true
  | None, _ => false
  end.

(** The same order read weakly, as a proposition: [at_least a b] when
    [a >= b], a NULL being below every number. *)
Definition at_least (a b : option Z) : Prop :=
  match a, b with
  | Some x, Some y => (y <= x)%Z
  | _, None => True
  | None, Some _ => False
  end.

(** Two adjacent rows of a relation in descending order of [key]. *)
Definition desc {R} (key : R -> option Z) (x y : R) : Prop :=
  at_least (key x) (key y).

(** [df.orderBy(key, ascending=False)]: a stable insertion sort. *)
Fixpoint insert_desc {R} (key : R -> option Z) (r : R) (sorted : list R) : list R :=
  match sorted with
  | [] => [r]
  | x :: rest =>
      if above (key x) (key r) then x :: insert_desc key r rest
      else r :: x :: rest
  end.

Definition orderBy_desc {R} (key : R -> option Z) (rows : list R) : list R :=
  fold_right (insert_desc key) [] rows.

(** [row_number().over(Window().orderBy(col(key).desc()))]: the rows in
    window order, numbered from 1. *)
Definition row_number_desc {R} (key : R -> option Z) (rows : list R) : list (R * nat) :=
  let ordered := orderBy_desc key rows in
  combine ordered (seq 1 (List.length ordered)).

(** Join keys match when both are present and equal. *)
Definition key_match (a b : option string) : bool :=
  match a, b with
  | Some x, Some y => String.eqb x y
  | _, _ => false
  end.

(** [left.join(right, on, "inner")] *)
Definition inner_join {L R} (kl : L -> option string) (kr : R -> option string)
           (ls : list L) (rs : list R) : list (L * R) :=
  flat_map (fun l => map (pair l) (filter (fun r => key_match (kl l) (kr r)) rs)) ls.

(** [left.join(right, on, "left")]: an unmatched left row is kept once,
    with no right row. *)
Definition left_join {L R} (kl : L -> option string) (kr : R -> option string)
           (ls : list L) (rs : list R) : list (L * option R) :=
  flat_map (fun l =>
              match filter (fun r => key_match (kl l) (kr r)) rs with
              | [] => [(l, None)]
              | matched => map (fun r => (l, Some r)) matched
              end) ls.

(** [df.distinct()]: the first occurrence of each row. *)
Fixpoint distinct {K} (eqb : K -> K -> bool) (rows : list K) : list K :=
  match rows with
  | [] => []
  | x :: rest => x :: filter (fun y => negb (eqb x y)) (distinct eqb rest)
  end.

End Sql.

(* ------------------------------------------------------------------ *)
(** ** The six relations

    Each record lists the columns of its CSV file that the program reads;
    no analysis looks at any other column. *)

Module Person.
Record t : Type := mk {
  CRASH_ID : option string;
  PRSN_GNDR_ID : option string;
  DEATH_CNT : option string;
  PRSN_ETHNICITY_ID : option string;
  DRVR_LIC_STATE_ID : option string;
  DRVR_LIC_CLS_ID : option string;
  DRVR_ZIP : option string;
  PRSN_ALC_RSLT_ID : option string
}.
End Person.

Module Unit.
Record t : Type := mk {
  CRASH_ID : option string;
  VEH_BODY_STYL_ID : option string;
  VEH_MAKE_ID : option string;
  VEH_COLOR_ID : option string;
  VEH_DMAG_SCL_1_ID : option string;
  VEH_DMAG_SCL_2_ID : option string;
  FIN_RESP_TYPE_ID : option string;
  TOT_INJRY_CNT : option string;
  DEATH_CNT : option string
}.
End Unit.

Module Charge.
Record t : Type := mk {
  CRASH_ID : option string;
  CHARGES : option string
}.
End Charge.

Module Damage.
Record t : Type := mk {
  CRASH_ID : option string;
  DAMAGED_PROPERTY : option string
}.
End Damage.

Module Endorse.
Record t : Type := mk {
  CRASH_ID : option string;
  DRVR_LIC_ENDORS_ID : option string
}.
End Endorse.

Module Restrict.
Record t : Type := mk {
  CRASH_ID : option string;
  DRVR_LIC_RESTRIC_ID : option string
}.
End Restrict.

(* ------------------------------------------------------------------ *)
(** ** The object, the world and the monad of its methods *)

(** The instance state of [CarCrashAnalysis] after [__init__]: the output
    path of the configuration, the six data frames and the report text
    under construction. *)
Record CarCrashAnalysis : Type := mkCarCrashAnalysis {
  _output_file_path : string;
  charges_use_df : list Charge.t;
  damages_use_df : list Damage.t;
  endorse_use_df : list Endorse.t;
  primary_person_use_df : list Person.t;
  restrict_use_df : list Restrict.t;
  units_use_df : list Unit.t;
  _output : string
}.

(** The part of the operating system the report sink touches: the files
    (path to content), what was printed, and for each path the error, if
    any, with which [os.remove], [open(path, "w")] and [write] fail. *)
Record World : Type := mkWorld {
  files : string -> option string;
  stdout : list string;
  remove_error : string -> option Py.exn;
  open_error : string -> option Py.exn;
  write_error : string -> option Py.exn
}.

Record State : Type := mkState {
  self : CarCrashAnalysis;
  world : World
}.

(** A method either returns a value or raises, and leaves a state. *)
Definition M (A : Type) : Type := State -> (Py.exn + A) * State.

Definition ret {A} (a : A) : M A := fun st => (inr a, st).

Definition bind {A B} (m : M A) (k : A -> M B) : M B :=
  fun st =>
    match m st with
    | (inl e, st') => (inl e, st')
    | (inr a, st') => k a st'
    end.

Definition raise {A} (e : Py.exn) : M A := fun st => (inl e, st).

(** [try: body  except Exception as e: handler e] *)
Definition try_except {A} (body : M A) (handler : Py.exn -> M A) : M A :=
  fun st =>
    match body st with
    | (inl e, st') => handler e st'
    | (inr a, st') => (inr a, st')
    end.

Declare Scope method_scope.
Delimit Scope method_scope with method.
Notation "x <- m ;; k" := (bind m (fun x => k))
  (at level 61, m at next level, right associativity) : method_scope.
Notation "m ;; k" := (bind m (fun _ => k))
  (at level 61, right associativity) : method_scope.
Local Open Scope method_scope.

Definition get_self : M CarCrashAnalysis := fun st => (inr (self st), st).

(** A computed result that may have raised. *)
Definition lift {A} (r : Py.exn + A) : M A := fun st => (r, st).

(** The object with its report text replaced. *)
Definition with_output (o : CarCrashAnalysis) (text : string) : CarCrashAnalysis :=
  mkCarCrashAnalysis (_output_file_path o) (charges_use_df o) (damages_use_df o)
    (endorse_use_df o) (primary_person_use_df o) (restrict_use_df o) (units_use_df o) text.

(** [self._output += text] *)
Definition append_output (text : string) : M unit :=
  fun st => (inr tt, mkState (with_output (self st) (_output (self st) ++ text)) (world st)).

Definition set_files (w : World) (f : string -> option string) : World :=
  mkWorld f (stdout w) (remove_error w) (open_error w) (write_error w).

Definition update (f : string -> option string) (path : string) (v : option string)
  : string -> option string :=
  fun p => if String.eqb p path then v else f p.

(** [print(msg)] *)
Definition print (msg : string) : M unit :=
  fun st =>
    let w := world st in
    (inr tt,
     mkState (self st)
             (mkWorld (files w) (stdout w ++ [msg]) (remove_error w) (open_error w)
                      (write_error w))).

(** [os.path.exists(path)] *)
Definition os_path_exists (path : string) : M bool :=
  fun st => (inr (Sql.not_null (files (world st) path)), st).

(** [os.remove(path)]: raises on an absent file and when the system
    refuses; otherwise the file is gone. *)
Definition os_remove (path : string) : M unit :=
  fun st =>
    let w := world st in
    match files w path with
    | None => (inl (Py.OSError "No such file or directory"), st)
    | Some _ =>
        match remove_error w path with
        | Some e => (inl e, st)
        | None => (inr tt, mkState (self st) (set_files w (update (files w) path None)))
        end
    end.

(** [with open(path, "w") as file_writer: file_writer.write(text)]:
    opening creates or truncates the file; a failed [write] leaves it
    truncated. *)
Definition open_and_write (path text : string) : M unit :=
  fun st =>
    let w := world st in
    match open_error w path with
    | Some e => (inl e, st)
    | None =>
        match write_error w path with
        | Some e => (inl e, mkState (self st) (set_files w (update (files w) path (Some ""))))
        | None => (inr tt, mkState (self st) (set_files w (update (files w) path (Some text))))
        end
    end.

(** What becomes of an operand of [&] that is no column.  Analysis 7
    writes [self.damages_use_df.CRASH_ID.isNull] without calling it, so
    the left operand of its first [&] is the bound method itself, and
    what [method & column] does is decided by the [Column] class of the
    data-frame binding, which this repository does not contain: either
    building the filter expression raises, or the operand is taken as a
    constant truth value.  With the PySpark binding it is the first:
    [Column.__rand__] hands the method to the gateway, which raises
    [AttributeError] while the filter is built, before any row is read.
    [Raises] is therefore the fate the program has; [Constant] is kept
    to say what the rest of the expression would select. *)
Inductive operand : Type :=
| Raises (e : Py.exn)
| Constant (b : bool).

Definition cell_of (c : option string) : Py.cell :=
  match c with
  | Some s => Py.CStr s
  | None => Py.CNone
  end.

(* ------------------------------------------------------------------ *)
(** ** The eight analyses *)

Section Analyses.

(** The implicit cast of a text column to a number, which the substrate
    applies in [DEATH_CNT > 0] and [TOT_INJRY_CNT + DEATH_CNT]; [None]
    (NULL) for text that is no number. *)
Variable coerce : string -> option Z.

(** The fate of the un-called [isNull] of analysis 7. *)
Variable isNull_attribute : operand.

Definition number (c : option string) : option Z :=
  match c with
  | Some s => coerce s
  | None => None
  end.

(** *** Analysis 1 *)

Definition killed_male (p : Person.t) : option bool :=
  Sql.and3 (Sql.gt_lit (number (Person.DEATH_CNT p)) 0)
           (Sql.eq_lit (Person.PRSN_GNDR_ID p) "MALE").

Definition result_1 (persons : list Person.t) : Py.value :=
  Py.VInt (Sql.count (Sql.where_ killed_male persons)).

Definition label_1 : string :=
  "Number of crashes (accidents) in which number of persons killed are male: ".

Definition get_no_of_car_crashes_persons_killed_male : M unit :=
  o <- get_self ;;
  let result := result_1 (primary_person_use_df o) in
  append_output (label_1 ++ Py.format_res result ++ Py.NL).

(** *** Analysis 2 *)

Definition two_wheeler (u : Unit.t) : option bool :=
  Sql.or3 (Sql.eq_lit (Unit.VEH_BODY_STYL_ID u) "MOTORCYCLE")
          (Sql.eq_lit (Unit.VEH_BODY_STYL_ID u) "POLICE MOTORCYCLE").

Definition result_2 (units : list Unit.t) : Py.value :=
  Py.VInt (Sql.count (Sql.where_ two_wheeler units)).

Definition label_2 : string := "Number of two wheelers booked for crashes: ".

Definition two_wheelers_booked_for_crashes : M unit :=
  o <- get_self ;;
  let result := result_2 (units_use_df o) in
  append_output (label_2 ++ Py.format_res result ++ Py.NL).

(** *** Analysis 3 *)

Definition female (p : Person.t) : option bool :=
  Sql.eq_lit (Person.PRSN_GNDR_ID p) "FEMALE".

(** [filter(...).groupBy("DRVR_LIC_STATE_ID").agg(count("CRASH_ID"))] *)
Definition female_crash_count (persons : list Person.t) : list (option string * Z) :=
  Sql.group_count Sql.cell_eqb Person.DRVR_LIC_STATE_ID
                  (fun p => Sql.not_null (Person.CRASH_ID p))
                  (Sql.where_ female persons).

Definition by_count {K} (g : K * Z) : option Z := Some (snd g).

(** [....orderBy("CRASH_COUNT", ascending=False).select(...).limit(1).collect()] *)
Definition top_female_states (persons : list Person.t) : list Py.Row :=
  Sql.limit 1
    (map (fun g => [("DRVR_LIC_STATE_ID", cell_of (fst g))])
         (Sql.orderBy_desc by_count (female_crash_count persons))).

(** [collect()[0]] *)
Definition result_3 (persons : list Person.t) : Py.exn + Py.value :=
  match top_female_states persons with
  | [] => inl (Py.IndexError "list index out of range")
  | r :: _ => inr (Py.VRow r)
  end.

Definition label_3 : string :=
  "State that has highest number of accidents in which females are involved: ".

Definition state_with_highest_accidents_females : M unit :=
  o <- get_self ;;
  result <- lift (result_3 (primary_person_use_df o)) ;;
  append_output (label_3 ++ Py.format_res result ++ Py.NL).

(** *** Analysis 4 *)

(** The column ["count"]: [TOT_INJRY_CNT + DEATH_CNT]. *)
Definition injurySeverity (u : Unit.t) : option Z :=
  Sql.add (number (Unit.TOT_INJRY_CNT u)) (number (Unit.DEATH_CNT u)).

(** [df]: the 15 units of largest ["count"]. *)
Definition top_15_units (units : list Unit.t) : list Unit.t :=
  Sql.limit 15 (Sql.orderBy_desc injurySeverity units).

(** The rows of [df] whose row number over the window is between 5 and
    15. *)
Definition units_5_to_15 (units : list Unit.t) : list Unit.t :=
  map fst
      (filter (fun x => Sql.between (snd x) 5 15)
              (Sql.row_number_desc injurySeverity (top_15_units units))).

Definition make_row (u : Unit.t) : Py.Row := [("VEH_MAKE_ID", cell_of (Unit.VEH_MAKE_ID u))].

Definition result_4 (units : list Unit.t) : Py.value :=
  Py.VList (map make_row (units_5_to_15 units)).

Definition label_4 : string :=
  "Top 5th to 15th VEH_MAKE_IDs that contribute to a largest number of injuries including "
  ++ "death: ".

Definition top_5_to_15_vehicle_ids_largest_no_of_injuries : M unit :=
  o <- get_self ;;
  let result := result_4 (units_use_df o) in
  append_output (label_4 ++ Py.format_res result ++ Py.NL).

(** *** Analysis 5 *)

Definition pair_eqb (a b : option string * option string) : bool :=
  Sql.cell_eqb (fst a) (fst b) && Sql.cell_eqb (snd a) (snd b).

(** [units.join(person, units.CRASH_ID == person.CRASH_ID)
      .groupBy("VEH_BODY_STYL_ID", "PRSN_ETHNICITY_ID")
      .agg(count("PRSN_ETHNICITY_ID").alias("ethn_count"))] *)
Definition ethnicity_counts (units : list Unit.t) (persons : list Person.t)
  : list ((option string * option string) * Z) :=
  Sql.group_count pair_eqb
    (fun up => (Unit.VEH_BODY_STYL_ID (fst up), Person.PRSN_ETHNICITY_ID (snd up)))
    (fun up => Sql.not_null (Person.PRSN_ETHNICITY_ID (snd up)))
    (Sql.inner_join Unit.CRASH_ID Person.CRASH_ID units persons).

Definition ethnicity_row (g : (option string * option string) * Z) : Py.Row :=
  [("VEH_BODY_STYL_ID", cell_of (fst (fst g)));
   ("PRSN_ETHNICITY_ID", cell_of (snd (fst g)));
   ("ethn_count", Py.CInt (snd g))].

Definition result_5 (units : list Unit.t) (persons : list Person.t) : Py.value :=
  Py.VList (map ethnicity_row (ethnicity_counts units persons)).

Definition label_5 : string :=
  "For all the body styles involved in crashes, the top ethnic user group of each unique body "
  ++ "style: ".

Definition top_ethnic_user_group_of_each_unique_body_style : M unit :=
  o <- get_self ;;
  let result := result_5 (units_use_df o) (primary_person_use_df o) in
  append_output (label_5 ++ Py.format_res result ++ Py.NL).

(** *** Analysis 6 *)

Definition alcohol_passenger_car (pu : Person.t * Unit.t) : option bool :=
  Sql.and3
    (Sql.or3 (Sql.eq_lit (Unit.VEH_BODY_STYL_ID (snd pu)) "PASSENGER CAR, 4-DOOR")
             (Sql.eq_lit (Unit.VEH_BODY_STYL_ID (snd pu)) "PASSENGER CAR, 2-DOOR"))
    (Sql.eq_lit (Person.PRSN_ALC_RSLT_ID (fst pu)) "Positive").

Definition zip_counts (persons : list Person.t) (units : list Unit.t)
  : list (option string * Z) :=
  Sql.group_count Sql.cell_eqb
    (fun pu => Person.DRVR_ZIP (fst pu))
    (fun pu => Sql.not_null (Person.CRASH_ID (fst pu)))
    (Sql.where_ alcohol_passenger_car
                (Sql.inner_join Person.CRASH_ID Unit.CRASH_ID persons units)).

Definition result_6 (persons : list Person.t) (units : list Unit.t) : Py.value :=
  Py.VList
    (Sql.limit 5
       (map (fun g => [("DRVR_ZIP", cell_of (fst g))])
            (Sql.orderBy_desc by_count (zip_counts persons units)))).

Definition label_6 : string :=
  "Among the crashed cars, what are the Top 5 Zip Codes with highest number crashes with "
  ++ "alcohols as the contributing factor to a crash: ".

Definition top_5_zip_codes_with_highest_no_of_crashes_with_alcohol_factor : M unit :=
  o <- get_self ;;
  let result := result_6 (primary_person_use_df o) (units_use_df o) in
  append_output (label_6 ++ Py.format_res result ++ Py.NL).

(** *** Analysis 7 *)

Definition damage_levels : list (option string) :=
  [Some "DAMAGED 4"; Some "DAMAGED 5"; Some "DAMAGED 6"; Some "DAMAGE 7 HIGHEST"].

(** The filter condition, [b] standing for the un-called [isNull]:
    [((isNull & scl1.isin(levels)) & scl2.isin(levels)) & (fin != "NA")]. *)
Definition high_damage_insured (b : bool) (ud : Unit.t * option Damage.t) : option bool :=
  Sql.and3
    (Sql.and3
       (Sql.and3 (Some b) (Sql.isin (Unit.VEH_DMAG_SCL_1_ID (fst ud)) damage_levels))
       (Sql.isin (Unit.VEH_DMAG_SCL_2_ID (fst ud)) damage_levels))
    (Sql.neq_lit (Unit.FIN_RESP_TYPE_ID (fst ud)) "NA").

Definition crash_id_row (c : option string) : Py.Row := [("CRASH_ID", cell_of c)].

(** [units.join(damages, "CRASH_ID", "left").filter(...).select("CRASH_ID")
      .distinct().collect()] *)
Definition result_7 (units : list Unit.t) (damages : list Damage.t) : Py.exn + Py.value :=
  match isNull_attribute with
  | Raises e => inl e
  | Constant b =>
      inr (Py.VList
             (map crash_id_row
                  (Sql.distinct Sql.cell_eqb
                     (map (fun ud => Unit.CRASH_ID (fst ud))
                          (Sql.where_ (high_damage_insured b)
                             (Sql.left_join Unit.CRASH_ID Damage.CRASH_ID units damages))))))
  end.

Definition label_7 : string :=
  "Count of Distinct Crash IDs where No Damaged Property was observed and Damage Level ("
  ++ "VEH_DMAG_SCL~) is above 4 and car avails Insurance: ".

Definition count_distinct_crash_ids_with_damages : M unit :=
  o <- get_self ;;
  result <- lift (result_7 (units_use_df o) (damages_use_df o)) ;;
  append_output (label_7 ++ Py.format_res result ++ Py.NL).

(** *** Analysis 8 *)

Definition invalid_license : list (option string) :=
  [Some "NA"; Some "UNLICENSED"; Some "UNKNOWN"].

Definition invalid_states : list (option string) := [Some "NA"; Some "Unknown"].

Definition top_10_colors (units : list Unit.t) : list (option string) :=
  map fst
      (Sql.limit 10
         (Sql.orderBy_desc by_count
            (Sql.group_count Sql.cell_eqb Unit.VEH_COLOR_ID
                             (fun u => Sql.not_null (Unit.CRASH_ID u)) units))).

Definition top_25_states_highest_offences (persons : list Person.t) : list (option string) :=
  map fst
      (Sql.limit 25
         (Sql.where_ (fun g => Sql.not3 (Sql.isin (fst g) invalid_states))
            (Sql.orderBy_desc by_count
               (Sql.group_count Sql.cell_eqb Person.DRVR_LIC_STATE_ID
                                (fun p => Sql.not_null (Person.CRASH_ID p)) persons)))).

Definition speeding_licensed (colors states : list (option string))
           (ucp : (Unit.t * Charge.t) * Person.t) : option bool :=
  Sql.and3
    (Sql.and3
       (Sql.and3 (Sql.contains (Charge.CHARGES (snd (fst ucp))) "SPEED")
                 (Sql.not3 (Sql.isin (Person.DRVR_LIC_CLS_ID (snd ucp)) invalid_license)))
       (Sql.isin (Person.DRVR_LIC_STATE_ID (snd ucp)) states))
    (Sql.isin (Unit.VEH_COLOR_ID (fst (fst ucp))) colors).

Definition make_counts (units : list Unit.t) (charges : list Charge.t)
           (persons : list Person.t) : list (option string * Z) :=
  Sql.group_count Sql.cell_eqb
    (fun ucp => Unit.VEH_MAKE_ID (fst (fst ucp)))
    (fun ucp => Sql.not_null (Unit.CRASH_ID (fst (fst ucp))))
    (Sql.where_ (speeding_licensed (top_10_colors units)
                                   (top_25_states_highest_offences persons))
       (Sql.inner_join (fun uc => Unit.CRASH_ID (fst uc)) Person.CRASH_ID
          (Sql.inner_join Unit.CRASH_ID Charge.CRASH_ID units charges) persons)).

Definition result_8 (units : list Unit.t) (charges : list Charge.t)
           (persons : list Person.t) : Py.value :=
  Py.VList
    (Sql.limit 5
       (map (fun g => [("VEH_MAKE_ID", cell_of (fst g))])
            (Sql.orderBy_desc by_count (make_counts units charges persons)))).

(** The triple-quoted literal of the source: three source lines, the
    line breaks between them and the eight blanks that open the second
    and the third are part of the text. *)
Definition label_8_line_1 : string :=
  "Top 5 Vehicle Makes where drivers are charged with speeding related offences,".

Definition label_8_line_2 : string :=
  "        has licensed Drivers, uses top 10 used vehicle colours and has car licensed with the Top 25".

Definition label_8_line_3 : string :=
  "        states with highest number of offences: ".

Definition label_8 : string :=
  label_8_line_1 ++ Py.NL ++ label_8_line_2 ++ Py.NL ++ label_8_line_3.

Definition determine_top_5_vehicle_makes : M unit :=
  o <- get_self ;;
  let result := result_8 (units_use_df o) (charges_use_df o) (primary_person_use_df o) in
  append_output (label_8 ++ Py.format_res result ++ Py.NL).

(** *** The report sink *)

Definition _remove_file_if_exists (path : string) : M unit :=
  try_except
    (found <- os_path_exists path ;;
     if found then
       print ("File already exists at path " ++ path ++ ". Removing the existing file...") ;;
       os_remove path ;;
       print "File deleted successfully!"
     else ret tt)
    (fun e => print ("Error occurred while removing file if it exists: " ++ Py.exn_str e)).

Definition write_to_file : M unit :=
  try_except
    (o <- get_self ;;
     _remove_file_if_exists (_output_file_path o) ;;
     o' <- get_self ;;
     open_and_write (_output_file_path o') (_output o') ;;
     print ("Output is successfully saved at the path: " ++ _output_file_path o'))
    (fun e =>
       print ("Error occurred while writing output to file: " ++ Py.exn_str e) ;;
       raise e).

(** *** The run *)

Definition execute_analysis : M unit :=
  try_except
    (get_no_of_car_crashes_persons_killed_male ;;
     two_wheelers_booked_for_crashes ;;
     state_with_highest_accidents_females ;;
     top_5_to_15_vehicle_ids_largest_no_of_injuries ;;
     top_ethnic_user_group_of_each_unique_body_style ;;
     top_5_zip_codes_with_highest_no_of_crashes_with_alcohol_factor ;;
     count_distinct_crash_ids_with_damages ;;
     determine_top_5_vehicle_makes ;;
     write_to_file)
    (fun e =>
       match e with
       | Py.AnalysisException desc =>
           print ("AnalysisException Exception: " ++ desc) ;; raise e
       | Py.IllegalArgumentException desc =>
           print ("IllegalArgumentException Exception: " ++ desc) ;; raise e
       | _ => print (Py.exn_str e) ;; raise e
       end).

End Analyses.

(** [CarCrashAnalysis()]: the object right after [__init__], the six
    relations loaded and the report text empty. *)
Definition new_CarCrashAnalysis (output_file_path : string)
           (charges : list Charge.t) (damages : list Damage.t) (endorse : list Endorse.t)
           (persons : list Person.t) (restrict : list Restrict.t) (units : list Unit.t)
  : CarCrashAnalysis :=
  mkCarCrashAnalysis output_file_path charges damages endorse persons restrict units "".

(** One run of the program, the [__main__] block: construct the object,
    then [execute_analysis]. *)
Definition main (coerce : string -> option Z) (isNull_attribute : operand)
           (object : CarCrashAnalysis) (w : World) : (Py.exn + unit) * State :=
  execute_analysis coerce isNull_attribute (mkState object w).

(* ------------------------------------------------------------------ *)
(** ** The report text, and two results as the specification words them *)

(** What one analysis appends: its label, its rendered result, a newline. *)
Definition entry (label : string) (v : Py.value) : string :=
  label ++ Py.format_res v ++ Py.NL.

(** The entries analyses 1 to 6 append, analysis 3 having returned
    [r3]. *)
Definition entries_1_to_6 (coerce : string -> option Z) (o : CarCrashAnalysis)
           (r3 : Py.value) : list string :=
  [entry label_1 (result_1 coerce (primary_person_use_df o));
   entry label_2 (result_2 (units_use_df o));
   entry label_3 r3;
   entry label_4 (result_4 coerce (units_use_df o));
   entry label_5 (result_5 (units_use_df o) (primary_person_use_df o));
   entry label_6 (result_6 (primary_person_use_df o) (units_use_df o))].

(** The count the specification has analysis 3 compare: the number of
    distinct [CRASH_ID] values among the female rows of one state. *)
Definition distinct_female_crashes (persons : list Person.t) (state : option string) : Z :=
  Sql.count
    (Sql.distinct Sql.cell_eqb
       (filter Sql.not_null
          (map Person.CRASH_ID
               (filter (fun p => Sql.cell_eqb (Person.DRVR_LIC_STATE_ID p) state)
                       (Sql.where_ female persons))))).

(** The filter condition of analysis 7 as the specification words it,
    the absence of a damage record tested on the joined row. *)
Definition undamaged_high_damage_insured (ud : Unit.t * option Damage.t) : option bool :=
  Sql.and3
    (Sql.and3
       (Sql.and3 (Sql.isNull (snd ud))
                 (Sql.isin (Unit.VEH_DMAG_SCL_1_ID (fst ud)) damage_levels))
       (Sql.isin (Unit.VEH_DMAG_SCL_2_ID (fst ud)) damage_levels))
    (Sql.neq_lit (Unit.FIN_RESP_TYPE_ID (fst ud)) "NA").

(** The result of analysis 7 as the specification words it: the integer
    count of the distinct [CRASH_ID] values of the rows that pass. *)
Definition claimed_result_7 (units : list Unit.t) (damages : list Damage.t) : Py.value :=
  Py.VInt
    (Sql.count
       (Sql.distinct Sql.cell_eqb
          (map (fun ud => Unit.CRASH_ID (fst ud))
               (Sql.where_ undamaged_high_damage_insured
                  (Sql.left_join Unit.CRASH_ID Damage.CRASH_ID units damages))))).

(* ------------------------------------------------------------------ *)
(** ** Measures used to state what the analyses return *)

(** The number of rows of group [k] whose counted column is not NULL:
    what [groupBy(key).agg(count(col))] reports for [k]. *)
Definition tally {R K} (eqb : K -> K -> bool) (key : R -> K) (counted : R -> bool)
           (k : K) (rows : list R) : Z :=
  Sql.count (filter (fun r => eqb (key r) k && counted r) rows).

(** What the groups built from [rows] satisfy: one group per key met, no
    key twice, each with the tally of its rows. *)
Definition grouped {R K} (eqb : K -> K -> bool) (key : R -> K) (counted : R -> bool)
           (rows : list R) (groups : list (K * Z)) : Prop :=
  NoDup (map fst groups)
  /\ (forall k n, In (k, n) groups ->
                  n = tally eqb key counted k rows /\ exists r, In r rows /\ key r = k)
  /\ (forall r, In r rows -> In (key r) (map fst groups)).

(** The FEMALE rows of one licence state that carry a [CRASH_ID]. *)
Definition female_rows (persons : list Person.t) (state : option string) : Z :=
  tally Sql.cell_eqb Person.DRVR_LIC_STATE_ID (fun p => Sql.not_null (Person.CRASH_ID p))
        state (Sql.where_ female persons).

(** The rows analysis 6 groups: the (person, unit) pairs of one crash
    with a positive alcohol result and a passenger car. *)
Definition alcohol_rows (persons : list Person.t) (units : list Unit.t)
  : list (Person.t * Unit.t) :=
  Sql.where_ alcohol_passenger_car
             (Sql.inner_join Person.CRASH_ID Unit.CRASH_ID persons units).

(** The number of those rows for one driver zip code. *)
Definition zip_crashes (persons : list Person.t) (units : list Unit.t)
           (zip : option string) : Z :=
  tally Sql.cell_eqb (fun pu : Person.t * Unit.t => Person.DRVR_ZIP (fst pu))
        (fun pu => Sql.not_null (Person.CRASH_ID (fst pu))) zip (alcohol_rows persons units).

(** The rows analysis 8 groups: the (unit, charge, person) triples of one
    crash that pass its filter. *)
Definition speeding_rows (units : list Unit.t) (charges : list Charge.t)
           (persons : list Person.t) : list ((Unit.t * Charge.t) * Person.t) :=
  Sql.where_ (speeding_licensed (top_10_colors units)
                                (top_25_states_highest_offences persons))
    (Sql.inner_join (fun uc : Unit.t * Charge.t => Unit.CRASH_ID (fst uc)) Person.CRASH_ID
       (Sql.inner_join Unit.CRASH_ID Charge.CRASH_ID units charges) persons).

(** The number of those rows for one vehicle make. *)
Definition make_crashes (units : list Unit.t) (charges : list Charge.t)
           (persons : list Person.t) (make : option string) : Z :=
  tally Sql.cell_eqb
        (fun ucp : (Unit.t * Charge.t) * Person.t => Unit.VEH_MAKE_ID (fst (fst ucp)))
        (fun ucp => Sql.not_null (Unit.CRASH_ID (fst (fst ucp)))) make
        (speeding_rows units charges persons).

(** The Person rows of one licence state that carry a [CRASH_ID]. *)
Definition state_rows (persons : list Person.t) (state : option string) : Z :=
  tally Sql.cell_eqb Person.DRVR_LIC_STATE_ID (fun p => Sql.not_null (Person.CRASH_ID p))
        state persons.

(** The units of one colour that carry a [CRASH_ID]. *)
Definition colour_rows (units : list Unit.t) (colour : option string) : Z :=
  tally Sql.cell_eqb Unit.VEH_COLOR_ID (fun u => Sql.not_null (Unit.CRASH_ID u))
        colour units.

(** The line [execute_analysis] prints for an exception before it
    re-raises it. *)
Definition diagnostic (e : Py.exn) : string :=
  match e with
  | Py.AnalysisException desc => "AnalysisException Exception: " ++ desc
  | Py.IllegalArgumentException desc => "IllegalArgumentException Exception: " ++ desc
  | _ => Py.exn_str e
  end.

(* ------------------------------------------------------------------ *)
(** ** Sample data

    A coercion that reads decimal integers, and small relations on which
    the definitions are evaluated below. *)

Definition decimal (s : string) : option Z :=
  option_map Z.of_int (NilZero.int_of_string s).

Definition person (crash gender death ethnicity state cls zip alcohol : string) : Person.t :=
  Person.mk (Some crash) (Some gender) (Some death) (Some ethnicity) (Some state)
            (Some cls) (Some zip) (Some alcohol).

Definition vehicle (crash body make color scl1 scl2 fin injuries deaths : string) : Unit.t :=
  Unit.mk (Some crash) (Some body) (Some make) (Some color) (Some scl1) (Some scl2)
          (Some fin) (Some injuries) (Some deaths).

(** A world with no file, where no system call fails. *)
Definition quiet_world : World :=
  mkWorld (fun _ => None) [] (fun _ => None) (fun _ => None) (fun _ => None).

Definition two_males : list Person.t :=
  [person "1" "MALE" "1" "WHITE" "TX" "CLASS C" "78521" "Negative";
   person "2" "MALE" "0" "WHITE" "TX" "CLASS C" "78521" "Negative"].

Definition sample_persons : list Person.t :=
  [person "1" "FEMALE" "0" "WHITE" "TX" "CLASS C" "78521" "Positive";
   person "1" "MALE" "1" "HISPANIC" "TX" "CLASS C" "78521" "Negative"].

Definition sample_units : list Unit.t :=
  [vehicle "1" "PASSENGER CAR, 4-DOOR" "FORD" "WHI" "DAMAGED 4" "DAMAGED 5"
           "PROOF OF LIABILITY INSURANCE" "1" "1";
   vehicle "2" "MOTORCYCLE" "HONDA" "BLK" "DAMAGED 1" "NA" "NA" "0" "0"].

Definition sample_charges : list Charge.t :=
  [Charge.mk (Some "1") (Some "FAIL TO CONTROL SPEED")].

Definition sample_damages : list Damage.t :=
  [Damage.mk (Some "1") (Some "FENCE")].

(** Three women of Texas in one crash, two women of California in two. *)
Definition three_in_one_crash : list Person.t :=
  [person "1" "FEMALE" "0" "WHITE" "TX" "CLASS C" "78521" "Negative";
   person "1" "FEMALE" "0" "WHITE" "TX" "CLASS C" "78521" "Negative";
   person "1" "FEMALE" "0" "WHITE" "TX" "CLASS C" "78521" "Negative";
   person "2" "FEMALE" "0" "WHITE" "CA" "CLASS C" "90001" "Negative";
   person "3" "FEMALE" "0" "WHITE" "CA" "CLASS C" "90001" "Negative"].

Definition one_sedan : list Unit.t :=
  [vehicle "1" "SEDAN" "FORD" "WHI" "DAMAGED 1" "NA" "NA" "0" "0"].

Definition sedan_occupants : list Person.t :=
  [person "1" "MALE" "0" "WHITE" "TX" "CLASS C" "78521" "Negative";
   person "1" "FEMALE" "0" "HISPANIC" "TX" "CLASS C" "78521" "Negative";
   person "1" "MALE" "0" "WHITE" "TX" "CLASS C" "78521" "Negative"].

Definition damaged_ford : list Unit.t :=
  [vehicle "1" "PASSENGER CAR, 4-DOOR" "FORD" "WHI" "DAMAGED 4" "DAMAGED 5"
           "PROOF OF LIABILITY INSURANCE" "1" "0"].

Definition fence_of_crash_1 : list Damage.t := [Damage.mk (Some "1") (Some "FENCE")].

(** A world that holds an earlier report at [out.txt]. *)
Definition world_with_old_report : World :=
  mkWorld (fun p => if String.eqb p "out.txt" then Some "old report" else None)
          [] (fun _ => None) (fun _ => None) (fun _ => None).

(** The same world, where the system refuses to remove the file. *)
Definition world_remove_denied : World :=
  mkWorld (fun p => if String.eqb p "out.txt" then Some "old report" else None)
          [] (fun _ => Some (Py.OSError "Permission denied")) (fun _ => None) (fun _ => None).

(** The same world again, where the system refuses both to remove the
    file and to open it for writing. *)
Definition world_nothing_permitted : World :=
  mkWorld (fun p => if String.eqb p "out.txt" then Some "old report" else None)
          [] (fun _ => Some (Py.OSError "Permission denied"))
          (fun _ => Some (Py.OSError "Permission denied")) (fun _ => None).

(** An object whose eight entries have been accumulated (abridged). *)
Definition object_with_report : CarCrashAnalysis :=
  mkCarCrashAnalysis "out.txt" [] [] [] [] [] [] ("Number of two wheelers booked for crashes: 0" ++ Py.NL).

(** The three units of the two-wheeler scenario. *)
Definition three_body_styles : list Unit.t :=
  [vehicle "1" "MOTORCYCLE" "HONDA" "BLK" "DAMAGED 1" "NA" "NA" "0" "0";
   vehicle "2" "SEDAN" "FORD" "WHI" "DAMAGED 1" "NA" "NA" "0" "0";
   vehicle "3" "POLICE MOTORCYCLE" "BMW" "WHI" "DAMAGED 1" "NA" "NA" "0" "0"].

(** A unit of make [M<n>] with [n] injuries and one death. *)
Definition unit_with_injuries (n : Z) : Unit.t :=
  vehicle (Py.str_int n) "SEDAN" ("M" ++ Py.str_int n) "WHI" "DAMAGED 1" "NA" "NA"
          (Py.str_int n) "1".

(** Seventeen units, their injuries in no particular order. *)
Definition seventeen_units : list Unit.t :=
  map unit_with_injuries [3; 17; 1; 9; 12; 5; 16; 2; 8; 14; 11; 4; 7; 15; 10; 6; 13]%Z.

(* ------------------------------------------------------------------ *)
(** ** Rendering, evaluated *)

Example repr_str_plain : Py.repr_str "TX" = "'TX'".
Proof. reflexivity. Qed.

Example repr_str_quote :
  Py.repr_str "O'HARE" = String Py.dquote ("O'HARE" ++ String Py.dquote EmptyString).
Proof. reflexivity. Qed.

Example format_res_rows :
  Py.format_res (Py.VList [[("DRVR_ZIP", Py.CStr "78521")]; [("DRVR_ZIP", Py.CNone)]])
  = "[Row(DRVR_ZIP='78521'), Row(DRVR_ZIP=None)]".
Proof. reflexivity. Qed.

Example format_res_int : Py.format_res (Py.VInt 182) = "182".
Proof. reflexivity. Qed.


(* ------------------------------------------------------------------ *)
(** ** Facts about the substrate *)

Section SortFacts.

Context {R : Type} (key : R -> option Z).

Lemma above_false_at_least (a b : option Z) :
  Sql.above a b = false -> Sql.at_least b a.
Proof.
  destruct a as [x|], b as [y|]; simpl; intros H; try easy.
  apply Z.ltb_ge in H. exact H.
Qed.

Lemma above_true_at_least (a b : option Z) :
  Sql.above a b = true -> Sql.at_least a b.
Proof.
  destruct a as [x|], b as [y|]; simpl; intros H; try easy.
  apply Z.ltb_lt in H. lia.
Qed.

Lemma insert_desc_HdRel (x r : R) (l : list R) :
  Sql.desc key x r -> HdRel (Sql.desc key) x l -> HdRel (Sql.desc key) x (Sql.insert_desc key r l).
Proof.
  intros Hxr Hl. destruct l as [|y l]; simpl.
  - constructor. exact Hxr.
  - destruct (Sql.above (key y) (key r)).
    + constructor. inversion Hl; assumption.
    + constructor. exact Hxr.
Qed.

Lemma insert_desc_Sorted (r : R) (l : list R) :
  Sorted (Sql.desc key) l -> Sorted (Sql.desc key) (Sql.insert_desc key r l).
Proof.
  induction l as [|x l IH]; simpl; intros Hs.
  - repeat constructor.
  - destruct (Sql.above (key x) (key r)) eqn:Hab.
    + inversion Hs as [|? ? Hl Hhd]; subst.
      constructor; [apply IH; exact Hl|].
      apply insert_desc_HdRel; [|exact Hhd].
      apply above_true_at_least. exact Hab.
    + constructor; [exact Hs|]. constructor.
      apply above_false_at_least. exact Hab.
Qed.

Lemma orderBy_desc_Sorted (l : list R) : Sorted (Sql.desc key) (Sql.orderBy_desc key l).
Proof.
  induction l as [|r l IH]; simpl.
  - constructor.
  - apply insert_desc_Sorted. exact IH.
Qed.

Lemma insert_desc_Permutation (r : R) (l : list R) :
  Permutation (r :: l) (Sql.insert_desc key r l).
Proof.
  induction l as [|x l IH]; simpl.
  - apply Permutation_refl.
  - destruct (Sql.above (key x) (key r)).
    + eapply perm_trans; [apply perm_swap|]. apply perm_skip. exact IH.
    + apply Permutation_refl.
Qed.

Lemma orderBy_desc_Permutation (l : list R) : Permutation l (Sql.orderBy_desc key l).
Proof.
  induction l as [|r l IH]; simpl.
  - constructor.
  - eapply perm_trans; [apply perm_skip; exact IH|]. apply insert_desc_Permutation.
Qed.

Lemma orderBy_desc_length (l : list R) :
  List.length (Sql.orderBy_desc key l) = List.length l.
Proof. symmetry. apply Permutation_length, orderBy_desc_Permutation. Qed.

(** A row that is at least the head of a descending relation is
    inserted in front of it. *)
Lemma insert_desc_front (r : R) (l : list R) :
  HdRel (Sql.desc key) r l -> Sql.insert_desc key r l = r :: l.
Proof.
  intros H. destruct l as [|x l]; simpl; [reflexivity|].
  inversion H as [|? ? Hrx]; subst. unfold Sql.desc in Hrx.
  destruct (Sql.above (key x) (key r)) eqn:Hab; [|reflexivity].
  exfalso. destruct (key x) as [a|], (key r) as [b|]; simpl in *; try easy.
  apply Z.ltb_lt in Hab. lia.
Qed.

(** Sorting again changes nothing: the window order of analysis 4 meets
    rows that [orderBy] has already put in that order. *)
Lemma orderBy_desc_sorted_id (l : list R) :
  Sorted (Sql.desc key) l -> Sql.orderBy_desc key l = l.
Proof.
  induction l as [|r l IH]; intros Hs; [reflexivity|].
  inversion Hs as [|? ? Hl Hhd]; subst.
  change (Sql.insert_desc key r (Sql.orderBy_desc key l) = r :: l).
  rewrite (IH Hl). apply insert_desc_front. exact Hhd.
Qed.

Lemma Sorted_firstn (n : nat) (l : list R) : Sorted (Sql.desc key) l -> Sorted (Sql.desc key) (firstn n l).
Proof.
  revert l. induction n as [|n IH]; intros l Hs; simpl; [constructor|].
  destruct l as [|x l]; [constructor|].
  inversion Hs as [|? ? Hl Hhd]; subst.
  constructor; [apply IH; exact Hl|].
  destruct n, l; simpl; constructor. inversion Hhd; assumption.
Qed.

Lemma Sorted_skipn (n : nat) (l : list R) : Sorted (Sql.desc key) l -> Sorted (Sql.desc key) (skipn n l).
Proof.
  revert l. induction n as [|n IH]; intros l Hs; simpl; [exact Hs|].
  destruct l as [|x l]; [constructor|].
  apply IH. inversion Hs; assumption.
Qed.

End SortFacts.

(** Row numbers that all lie within 5..15 keep every row. *)
Lemma rows_in_window {R} (l : list R) (s : nat) :
  5 <= s -> s + List.length l <= 16 ->
  map fst (filter (fun x => Sql.between (snd x) 5 15) (combine l (seq s (List.length l)))) = l.
Proof.
  revert s. induction l as [|x l IH]; intros s H5 Hlen; [reflexivity|].
  change (combine (x :: l) (seq s (List.length (x :: l))))
    with ((x, s) :: combine l (seq (S s) (List.length l))).
  assert (Hb : Sql.between s 5 15 = true).
  { unfold Sql.between. apply andb_true_intro.
    split; apply Nat.leb_le; simpl in Hlen; lia. }
  cbn [filter snd]. rewrite Hb. cbn [map fst].
  f_equal. apply IH; simpl in Hlen; lia.
Qed.

(** Of at most 15 numbered rows, those numbered 5 to 15 are all but the
    first four. *)
Lemma window_5_to_15 {R} (l : list R) :
  List.length l <= 15 ->
  map fst (filter (fun x => Sql.between (snd x) 5 15) (combine l (seq 1 (List.length l))))
  = skipn 4 l.
Proof.
  intros Hlen.
  destruct l as [|a [|b [|c [|d l]]]]; try reflexivity.
  change (map fst (filter (fun x => Sql.between (snd x) 5 15)
                          (combine l (seq 5 (List.length l)))) = l).
  apply rows_in_window; simpl in *; lia.
Qed.

(* ------------------------------------------------------------------ *)
(** ** Analysis 1: the count of killed males *)

Section Analysis1.

Variable coerce : string -> option Z.

(** The count after one more row: the old count, plus one exactly when
    the filter condition is true of the new row. *)
Lemma result_1_append (persons : list Person.t) (r : Person.t) :
  result_1 coerce (persons ++ [r])
  = Py.VInt (Sql.count (Sql.where_ (killed_male coerce) persons)
             + (if Sql.holds (killed_male coerce r) then 1 else 0))%Z.
Proof.
  unfold result_1, Sql.count, Sql.where_. rewrite filter_app, length_app. simpl.
  destruct (Sql.holds (killed_male coerce r)); simpl; f_equal; lia.
Qed.

Lemma killed_male_zero (r : Person.t) :
  number coerce (Person.DEATH_CNT r) = Some 0%Z -> Sql.holds (killed_male coerce r) = false.
Proof.
  intros H. unfold killed_male. rewrite H. simpl.
  destruct (Sql.eq_lit (Person.PRSN_GNDR_ID r) "MALE") as [[|]|]; reflexivity.
Qed.

Lemma killed_male_other_gender (r : Person.t) :
  Person.PRSN_GNDR_ID r <> Some "MALE" -> Sql.holds (killed_male coerce r) = false.
Proof.
  intros H. unfold killed_male.
  destruct (Person.PRSN_GNDR_ID r) as [g|]; simpl.
  - destruct (String.eqb_spec g "MALE") as [->|_]; [congruence|].
    destruct (Sql.gt_lit (number coerce (Person.DEATH_CNT r)) 0) as [[|]|]; reflexivity.
  - destruct (Sql.gt_lit (number coerce (Person.DEATH_CNT r)) 0) as [[|]|]; reflexivity.
Qed.

(** C7 — Analysis 1 is monotonic in its input: appending to the Person
    relation a row whose [DEATH_CNT] coerces to 0, or a row whose
    [PRSN_GNDR_ID] is not "MALE", leaves the returned count unchanged;
    appending a row with [DEATH_CNT = "1"] and [PRSN_GNDR_ID = "MALE"]
    (the text "1" coercing to the number 1) increases it by exactly 1. *)
Theorem analysis_1_monotonic (persons : list Person.t) (r : Person.t) :
  (number coerce (Person.DEATH_CNT r) = Some 0%Z ->
   result_1 coerce (persons ++ [r]) = result_1 coerce persons)
  /\ (Person.PRSN_GNDR_ID r <> Some "MALE" ->
      result_1 coerce (persons ++ [r]) = result_1 coerce persons)
  /\ (coerce "1" = Some 1%Z ->
      Person.DEATH_CNT r = Some "1" ->
      Person.PRSN_GNDR_ID r = Some "MALE" ->
      exists n : Z,
        result_1 coerce persons = Py.VInt n
        /\ result_1 coerce (persons ++ [r]) = Py.VInt (n + 1)).
Proof.
  repeat split.
  - intros H. rewrite result_1_append, (killed_male_zero r H).
    unfold result_1. f_equal. lia.
  - intros H. rewrite result_1_append, (killed_male_other_gender r H).
    unfold result_1. f_equal. lia.
  - intros H1 Hd Hg. eexists. split; [reflexivity|].
    rewrite result_1_append. unfold killed_male, number.
    rewrite Hd, Hg, H1. reflexivity.
Qed.

End Analysis1.

Lemma analysis_1_monotonic_witness :
  result_1 decimal (two_males ++ [person "3" "MALE" "0" "BLACK" "TX" "CLASS C" "78520" "NA"])
  = Py.VInt 1
  /\ result_1 decimal (two_males ++ [person "3" "FEMALE" "1" "BLACK" "TX" "CLASS C" "78520" "NA"])
     = Py.VInt 1
  /\ result_1 decimal (two_males ++ [person "3" "MALE" "1" "BLACK" "TX" "CLASS C" "78520" "NA"])
     = Py.VInt 2.
Proof.
  split; [|split].
  - rewrite (proj1 (analysis_1_monotonic decimal two_males _)); reflexivity.
  - rewrite (proj1 (proj2 (analysis_1_monotonic decimal two_males _))).
    + reflexivity.
    + discriminate.
  - destruct (proj2 (proj2 (analysis_1_monotonic decimal two_males
                (person "3" "MALE" "1" "BLACK" "TX" "CLASS C" "78520" "NA")))
                eq_refl eq_refl eq_refl) as [n [Hn Happ]].
    rewrite Happ. f_equal. vm_compute in Hn. injection Hn as <-. reflexivity.
Defined.

(** The scenario of the specification: one killed male and one unharmed
    male count 1. *)
Example analysis_1_scenario : result_1 decimal two_males = Py.VInt 1.
Proof. reflexivity. Qed.

(* ------------------------------------------------------------------ *)
(** ** Analysis 4: ranks 5 to 15 by injuries and deaths *)

(** [injurySeverity] read off the two text columns: their coerced sum,
    NULL as soon as one of them is missing or is no number. *)
Lemma injurySeverity_columns (coerce : string -> option Z) (u : Unit.t) :
  injurySeverity coerce u
  = match Unit.TOT_INJRY_CNT u, Unit.DEATH_CNT u with
    | Some injuries, Some deaths =>
        match coerce injuries, coerce deaths with
        | Some i, Some d => Some (i + d)%Z
        | _, _ => None
        end
    | _, _ => None
    end.
Proof.
  unfold injurySeverity, number, Sql.add.
  destruct (Unit.TOT_INJRY_CNT u) as [injuries|]; destruct (Unit.DEATH_CNT u) as [deaths|];
    try reflexivity;
    repeat match goal with |- context [coerce ?text] => destruct (coerce text) end;
    reflexivity.
Qed.

Lemma Sorted_impl {A} (r r' : A -> A -> Prop) (l : list A) :
  (forall x y, r x y -> r' x y) -> Sorted r l -> Sorted r' l.
Proof.
  intros Himp. induction 1 as [|x l Hs IH Hhd]; constructor; [exact IH|].
  destruct Hhd; constructor. apply Himp. assumption.
Qed.

(** C6 — The list returned by analysis 4 has at most 11 entries and is a
    contiguous rank slice of the units ordered descending by
    [injurySeverity = TOT_INJRY_CNT + DEATH_CNT]: there is an arrangement
    [ranked] of the units in which every unit has a sum of its two
    coerced columns at least that of the next (a unit without such a sum
    being below every unit with one), and the result is the
    [VEH_MAKE_ID] of the units of ranks 5 to 15 of it, in that order; so
    of any two adjacent returned makes the unit yielding the first has an
    [injurySeverity] at least that of the unit yielding the second. *)
Theorem analysis_4_rank_slice (coerce : string -> option Z) (units : list Unit.t) :
  let severity := fun u : Unit.t =>
    match Unit.TOT_INJRY_CNT u, Unit.DEATH_CNT u with
    | Some injuries, Some deaths =>
        match coerce injuries, coerce deaths with
        | Some i, Some d => Some (i + d)%Z
        | _, _ => None
        end
    | _, _ => None
    end in
  let at_least := fun u v : Unit.t =>
    match severity u, severity v with
    | Some x, Some y => (y <= x)%Z
    | _, None => True
    | None, Some _ => False
    end in
  let make := fun u : Unit.t =>
    [("VEH_MAKE_ID",
      match Unit.VEH_MAKE_ID u with
      | Some m => Py.CStr m
      | None => Py.CNone
      end)] in
  exists ranked : list Unit.t,
    Permutation units ranked
    /\ Sorted at_least ranked
    /\ result_4 coerce units = Py.VList (map make (firstn 11 (skipn 4 ranked)))
    /\ List.length (map make (firstn 11 (skipn 4 ranked))) <= 11
    /\ Sorted at_least (firstn 11 (skipn 4 ranked)).
Proof.
  intros severity at_least make.
  exists (Sql.orderBy_desc (injurySeverity coerce) units).
  assert (Himp : forall u v, Sql.desc (injurySeverity coerce) u v -> at_least u v).
  { intros u v. unfold Sql.desc, Sql.at_least, at_least, severity.
    rewrite !injurySeverity_columns. exact (fun H => H). }
  assert (Hs : Sorted (Sql.desc (injurySeverity coerce))
                      (Sql.orderBy_desc (injurySeverity coerce) units))
    by apply orderBy_desc_Sorted.
  split; [apply orderBy_desc_Permutation|].
  split; [exact (Sorted_impl _ _ _ Himp Hs)|].
  split; [|split].
  - unfold result_4, units_5_to_15, Sql.row_number_desc, top_15_units, Sql.limit.
    f_equal.
    rewrite (orderBy_desc_sorted_id _ _ (Sorted_firstn _ 15 _ Hs)).
    rewrite window_5_to_15 by apply firstn_le_length.
    rewrite (firstn_skipn_comm 11 4). reflexivity.
  - rewrite length_map. apply firstn_le_length.
  - apply (Sorted_impl _ _ _ Himp), Sorted_firstn, Sorted_skipn, Hs.
Qed.

(* ------------------------------------------------------------------ *)
(** ** The report sink *)

(** Unfolds the methods of the sink down to the state they build. *)
Ltac unfold_sink :=
  unfold write_to_file, _remove_file_if_exists, try_except, bind, get_self,
    os_path_exists, os_remove, open_and_write, print, ret, raise, set_files, update.

(** Splits on what the file system holds and on which system call fails. *)
Ltac split_world st p :=
  destruct (files (world st) p) eqn:?;
  destruct (remove_error (world st) p) eqn:?;
  destruct (open_error (world st) p) eqn:?;
  destruct (write_error (world st) p) eqn:?.

(** The delete step always returns normally and touches neither the
    object nor the failures the system has in store. *)
Lemma remove_file_returns (path : string) (st : State) :
  exists st' : State,
    _remove_file_if_exists path st = (inr tt, st')
    /\ self st' = self st
    /\ remove_error (world st') = remove_error (world st)
    /\ open_error (world st') = open_error (world st)
    /\ write_error (world st') = write_error (world st)
    /\ (forall q, q <> path -> files (world st') q = files (world st) q).
Proof.
  unfold_sink.
  destruct (files (world st) path) eqn:Hf; simpl.
  - rewrite Hf. destruct (remove_error (world st) path) eqn:Hr; simpl.
    + eexists. split; [reflexivity|]. simpl. repeat split; auto.
    + eexists. split; [reflexivity|]. simpl. repeat split; auto.
      intros q Hq. destruct (String.eqb_spec q path); [contradiction|reflexivity].
  - eexists. split; [reflexivity|]. repeat split; auto.
Qed.

(** What [write_to_file] returns and leaves at the output path is decided
    by [open] and [write] alone, whatever the delete step met. *)
Lemma write_to_file_outcome (st : State) :
  let p := _output_file_path (self st) in
  let after := write_to_file st in
  match open_error (world st) p, write_error (world st) p with
  | Some e, _ => fst after = inl e /\ self (snd after) = self st
  | None, Some e =>
      fst after = inl e /\ files (world (snd after)) p = Some "" /\ self (snd after) = self st
  | None, None =>
      fst after = inr tt
      /\ files (world (snd after)) p = Some (_output (self st))
      /\ self (snd after) = self st
  end.
Proof.
  intros p after. subst after.
  destruct (remove_file_returns p st) as (st' & Hrm & Hself & _ & Hopen & Hwrite & _).
  unfold write_to_file, try_except, bind, get_self. fold p. rewrite Hrm.
  unfold open_and_write. rewrite Hself. fold p. rewrite Hopen, Hwrite.
  destruct (open_error (world st) p) as [e|].
  - unfold print, raise. simpl. auto.
  - destruct (write_error (world st) p) as [e|]; unfold print, raise, set_files, update; simpl;
      rewrite String.eqb_refl; auto.
Qed.

(** On an absent file the delete step does nothing at all. *)
Lemma remove_file_absent (path : string) (st : State) :
  files (world st) path = None -> _remove_file_if_exists path st = (inr tt, st).
Proof.
  intros Hf. unfold_sink. rewrite Hf. reflexivity.
Qed.

(** Where the system lets the file go, the delete step leaves no file. *)
Lemma remove_file_deletes (path : string) (st : State) :
  remove_error (world st) path = None ->
  files (world (snd (_remove_file_if_exists path st))) path = None.
Proof.
  intros Hr. unfold_sink.
  destruct (files (world st) path) eqn:Hf; simpl.
  - rewrite Hf, Hr. simpl. rewrite String.eqb_refl. reflexivity.
  - exact Hf.
Qed.

(** The files after the delete step: the path is cleared when a file was
    there and the system lets it go; everything else stays. *)
Lemma remove_file_files (path : string) (st : State) (q : string) :
  files (world (snd (_remove_file_if_exists path st))) q
  = match files (world st) path, remove_error (world st) path with
    | Some _, None => if String.eqb q path then None else files (world st) q
    | _, _ => files (world st) q
    end.
Proof.
  unfold_sink.
  destruct (files (world st) path) eqn:Hf; simpl; [|reflexivity].
  rewrite Hf. destruct (remove_error (world st) path); reflexivity.
Qed.

(** C9 — The report sink first tries to delete an existing file at the
    destination and then writes the full report.  An absent file is no
    error and prints nothing; a second delete changes no file.  Where
    [os.remove] does not fail the file is gone before anything is
    written, as the console and a failing [open] show; where [os.remove]
    fails, that failure is printed and swallowed and the file stays.
    Every failure of [open] or of [write] reaches the caller of
    [write_to_file] as that very error, after its message is printed, and
    on success the file holds exactly [self._output]. *)
Theorem report_sink_contract (st : State) :
  let p := _output_file_path (self st) in
  let w := world st in
  let after := write_to_file st in
  let removing := "File already exists at path " ++ p ++ ". Removing the existing file..." in
  let refused := fun e => "Error occurred while removing file if it exists: " ++ Py.exn_str e in
  let failed := fun e => "Error occurred while writing output to file: " ++ Py.exn_str e in
  let saved := "Output is successfully saved at the path: " ++ p in
  let delete_log :=
    match files w p, remove_error w p with
    | None, _ => []
    | Some _, None => [removing; "File deleted successfully!"]
    | Some _, Some e => [removing; refused e]
    end in
  let left_by_delete :=
    match files w p, remove_error w p with
    | Some old, Some _ => Some old
    | _, _ => None
    end in
  (forall q, files (world (snd (_remove_file_if_exists p
                                  (snd (_remove_file_if_exists p st))))) q
             = files (world (snd (_remove_file_if_exists p st))) q)
  /\ match open_error w p, write_error w p with
     | Some e, _ =>
         fst after = inl e
         /\ files (world (snd after)) p = left_by_delete
         /\ stdout (world (snd after)) = (stdout w ++ delete_log ++ [failed e])%list
     | None, Some e =>
         fst after = inl e
         /\ files (world (snd after)) p = Some ""
         /\ stdout (world (snd after)) = (stdout w ++ delete_log ++ [failed e])%list
     | None, None =>
         fst after = inr tt
         /\ files (world (snd after)) p = Some (_output (self st))
         /\ stdout (world (snd after)) = (stdout w ++ delete_log ++ [saved])%list
     end.
Proof.
  cbv zeta. split.
  { intros q. rewrite !remove_file_files.
    destruct (remove_file_returns (_output_file_path (self st)) st)
      as (st' & Hrm & _ & Hr & _).
    rewrite Hrm. simpl. rewrite Hr.
    destruct (files (world st) (_output_file_path (self st))) eqn:Hf,
             (remove_error (world st) (_output_file_path (self st))) eqn:He;
      rewrite ?String.eqb_refl, ?Hf; try reflexivity. }
  destruct st as [o w]. cbn [self world].
  set (p := _output_file_path o).
  unfold write_to_file, _remove_file_if_exists, try_except, bind, get_self,
    os_path_exists, os_remove, open_and_write, print, ret, raise, set_files.
  cbn [self world files stdout remove_error open_error write_error fst snd Sql.not_null].
  fold p.
  destruct (files w p) as [old|] eqn:Hf;
    cbn [Sql.not_null self world files stdout remove_error open_error write_error fst snd];
    fold p; rewrite ?Hf;
    destruct (remove_error w p) as [er|] eqn:Hr;
    cbn [Sql.not_null self world files stdout remove_error open_error write_error fst snd];
    fold p;
    destruct (open_error w p) as [eo|] eqn:Ho;
    cbn [Sql.not_null self world files stdout remove_error open_error write_error fst snd];
    fold p; rewrite ?Ho;
    destruct (write_error w p) as [ew|] eqn:Hw;
    cbn [Sql.not_null self world files stdout remove_error open_error write_error fst snd];
    fold p; rewrite ?Hw;
    unfold update; rewrite ?String.eqb_refl, ?Hf, <- ?app_assoc; cbn [app];
    repeat split; reflexivity.
Qed.

(** The destination holds an earlier report that the system lets
    nobody delete or overwrite: the delete step leaves it, the sink
    raises the error of [open], and the earlier report is still there. *)
Lemma sink_keeps_file_it_cannot_delete :
  files (world (snd (_remove_file_if_exists "out.txt"
                       (mkState object_with_report world_nothing_permitted)))) "out.txt"
  = Some "old report"
  /\ fst (write_to_file (mkState object_with_report world_nothing_permitted))
     = inl (Py.OSError "Permission denied")
  /\ files (world (snd (write_to_file (mkState object_with_report world_nothing_permitted))))
           "out.txt"
     = Some "old report".
Proof. repeat split; reflexivity. Qed.

(** C10 — The pre-write delete step never propagates an error: whatever
    is raised while the existing output file is checked for or removed,
    [_remove_file_if_exists] catches it and returns normally, so that the
    write of the report is still attempted (and, where [open] and [write]
    succeed, replaces the file that could not be removed). *)
Theorem remove_file_never_raises (path : string) (st : State) :
  fst (_remove_file_if_exists path st) = inr tt
  /\ (forall old e,
        files (world st) (_output_file_path (self st)) = Some old ->
        remove_error (world st) (_output_file_path (self st)) = Some e ->
        files (world (snd (_remove_file_if_exists (_output_file_path (self st)) st)))
              (_output_file_path (self st)) = Some old
        /\ match open_error (world st) (_output_file_path (self st)),
                 write_error (world st) (_output_file_path (self st)) with
           | Some e', _ | None, Some e' => fst (write_to_file st) = inl e'
           | None, None =>
               fst (write_to_file st) = inr tt
               /\ files (world (snd (write_to_file st))) (_output_file_path (self st))
                  = Some (_output (self st))
           end).
Proof.
  split.
  - destruct (remove_file_returns path st) as (st' & Hrm & _). rewrite Hrm. reflexivity.
  - intros old e Hf He. split.
    + rewrite remove_file_files, Hf, He. reflexivity.
    + pose proof (write_to_file_outcome st) as Hout. cbv zeta in Hout.
      destruct (open_error (world st) (_output_file_path (self st))).
      * apply Hout.
      * destruct (write_error (world st) (_output_file_path (self st)));
          [apply Hout | split; apply Hout].
Qed.

Lemma remove_file_never_raises_witness :
  fst (_remove_file_if_exists "out.txt" (mkState object_with_report world_remove_denied))
  = inr tt
  /\ files (world (snd (_remove_file_if_exists "out.txt"
                          (mkState object_with_report world_remove_denied)))) "out.txt"
     = Some "old report"
  /\ fst (write_to_file (mkState object_with_report world_remove_denied)) = inr tt
  /\ files (world (snd (write_to_file (mkState object_with_report world_remove_denied))))
           "out.txt"
     = Some ("Number of two wheelers booked for crashes: 0" ++ Py.NL).
Proof.
  pose proof (remove_file_never_raises "out.txt"
                (mkState object_with_report world_remove_denied)) as [Hret Hw].
  split; [exact Hret|].
  destruct (Hw "old report" (Py.OSError "Permission denied") eq_refl eq_refl) as [Hkept Hwr].
  split; [exact Hkept|]. exact Hwr.
Defined.

(* ------------------------------------------------------------------ *)
(** ** Unfolding the methods of a run *)

Ltac unfold_run :=
  cbv beta iota zeta delta
    [bind get_self lift append_output
     get_no_of_car_crashes_persons_killed_male two_wheelers_booked_for_crashes
     state_with_highest_accidents_females top_5_to_15_vehicle_ids_largest_no_of_injuries
     top_ethnic_user_group_of_each_unique_body_style
     top_5_zip_codes_with_highest_no_of_crashes_with_alcohol_factor
     count_distinct_crash_ids_with_damages determine_top_5_vehicle_makes
     self world _output_file_path charges_use_df damages_use_df endorse_use_df
     primary_person_use_df restrict_use_df units_use_df _output
     with_output entries_1_to_6 entry fold_left] in *.

(* ------------------------------------------------------------------ *)
(** ** Analysis 3: the state with most female-involved crashes *)

Lemma where_none {R} (cond : R -> option bool) (rows : list R) :
  (forall r, In r rows -> Sql.holds (cond r) = false) -> Sql.where_ cond rows = [].
Proof.
  induction rows as [|r rows IH]; intros H; [reflexivity|].
  unfold Sql.where_ in *. simpl. rewrite (H r (or_introl eq_refl)).
  apply IH. intros r' Hin. apply H. right. exact Hin.
Qed.

Lemma female_false (p : Person.t) :
  Person.PRSN_GNDR_ID p <> Some "FEMALE" -> Sql.holds (female p) = false.
Proof.
  unfold female. destruct (Person.PRSN_GNDR_ID p) as [g|]; simpl; [|reflexivity].
  destruct (String.eqb_spec g "FEMALE") as [->|_]; [congruence|reflexivity].
Qed.

(** C5 — With no Person row whose [PRSN_GNDR_ID] is "FEMALE", analysis 3
    has no first row to take: [collect()[0]] raises [IndexError], the run
    ends with that error and no report is written.  (The claim asks for
    an empty result instead.) *)
Theorem analysis_3_raises_without_females
        (coerce : string -> option Z) (isNull_attribute : operand)
        (o : CarCrashAnalysis) (w : World) :
  (forall p, In p (primary_person_use_df o) -> Person.PRSN_GNDR_ID p <> Some "FEMALE") ->
  result_3 (primary_person_use_df o) = inl (Py.IndexError "list index out of range")
  /\ fst (main coerce isNull_attribute o w) = inl (Py.IndexError "list index out of range")
  /\ files (world (snd (main coerce isNull_attribute o w))) = files w.
Proof.
  intros Hnone.
  assert (H3 : result_3 (primary_person_use_df o)
               = inl (Py.IndexError "list index out of range")).
  { unfold result_3, top_female_states, female_crash_count.
    rewrite where_none; [reflexivity|].
    intros p Hp. apply female_false, Hnone, Hp. }
  split; [exact H3|].
  unfold main, execute_analysis, try_except.
  destruct o as [path ch dm en pp rs un out].
  unfold_run. rewrite H3. unfold print, raise. simpl. split; reflexivity.
Qed.

Lemma analysis_3_raises_without_females_witness :
  result_3 two_males = inl (Py.IndexError "list index out of range")
  /\ fst (main decimal (Constant true)
            (new_CarCrashAnalysis "out.txt" [] [] [] two_males [] []) quiet_world)
     = inl (Py.IndexError "list index out of range")
  /\ files (world (snd (main decimal (Constant true)
            (new_CarCrashAnalysis "out.txt" [] [] [] two_males [] []) quiet_world)))
     = files quiet_world.
Proof.
  apply (analysis_3_raises_without_females decimal (Constant true)
           (new_CarCrashAnalysis "out.txt" [] [] [] two_males [] []) quiet_world).
  simpl. intros p [<-|[<-|[]]]; discriminate.
Defined.

Lemma desc_by_count_trans {K} (a b c : K * Z) :
  Sql.desc by_count a b -> Sql.desc by_count b c -> Sql.desc by_count a c.
Proof. unfold Sql.desc, by_count. simpl. lia. Qed.

(** What analysis 3 does return: the state of a group whose
    [count("CRASH_ID")] no other group exceeds. *)
Lemma result_3_maximal_count (persons : list Person.t) (r3 : Py.value) :
  result_3 persons = inr r3 ->
  exists (state : option string) (n : Z),
    r3 = Py.VRow [("DRVR_LIC_STATE_ID", cell_of state)]
    /\ In (state, n) (female_crash_count persons)
    /\ forall g, In g (female_crash_count persons) -> (snd g <= n)%Z.
Proof.
  unfold result_3, top_female_states.
  pose proof (orderBy_desc_Sorted by_count (female_crash_count persons)) as Hs.
  pose proof (orderBy_desc_Permutation by_count (female_crash_count persons)) as Hp.
  destruct (Sql.orderBy_desc by_count (female_crash_count persons)) as [|[state n] rest];
    [discriminate|].
  intros [= <-]. exists state, n. split; [reflexivity|]. split.
  - apply (Permutation_in _ (Permutation_sym Hp)). left. reflexivity.
  - intros g Hg. apply (Permutation_in _ Hp) in Hg.
    destruct Hg as [<-|Hg]; [simpl; lia|].
    apply Sorted_StronglySorted in Hs; [|intros a b c; apply desc_by_count_trans].
    inversion Hs as [|? ? _ Hall]; subst.
    rewrite Forall_forall in Hall. exact (Hall g Hg).
Qed.

(** C3 — Analysis 3 compares [count("CRASH_ID")], the number of rows of
    a group, not the number of its distinct crashes: on
    [three_in_one_crash] the groups carry 3 (TX) and 2 (CA) and TX is
    returned, although TX has one distinct crash and CA has two. *)
Theorem analysis_3_counts_rows :
  female_crash_count three_in_one_crash = [(Some "TX", 3%Z); (Some "CA", 2%Z)]
  /\ result_3 three_in_one_crash = inr (Py.VRow [("DRVR_LIC_STATE_ID", Py.CStr "TX")])
  /\ distinct_female_crashes three_in_one_crash (Some "TX") = 1%Z
  /\ distinct_female_crashes three_in_one_crash (Some "CA") = 2%Z.
Proof. repeat split; reflexivity. Qed.

(* ------------------------------------------------------------------ *)
(** ** Analysis 5: ethnic groups per body style *)

(** C4 — Analysis 5 returns the grouped (style, ethnicity, count) rows
    as they are, one per pair and not one per body style: for one sedan
    with two white occupants and one hispanic occupant it returns both
    rows of the sedan.  (The claim asks for the single top ethnicity of
    each style; the source notes that this step is missing.) *)
Theorem analysis_5_returns_triples :
  result_5 one_sedan sedan_occupants
  = Py.VList
      [[("VEH_BODY_STYL_ID", Py.CStr "SEDAN"); ("PRSN_ETHNICITY_ID", Py.CStr "WHITE");
        ("ethn_count", Py.CInt 2)];
       [("VEH_BODY_STYL_ID", Py.CStr "SEDAN"); ("PRSN_ETHNICITY_ID", Py.CStr "HISPANIC");
        ("ethn_count", Py.CInt 1)]]
  /\ Py.format_res (result_5 one_sedan sedan_occupants)
     = "[Row(VEH_BODY_STYL_ID='SEDAN', PRSN_ETHNICITY_ID='WHITE', ethn_count=2), "
       ++ "Row(VEH_BODY_STYL_ID='SEDAN', PRSN_ETHNICITY_ID='HISPANIC', ethn_count=1)]".
Proof. split; reflexivity. Qed.

(* ------------------------------------------------------------------ *)
(** ** Analysis 7: crashes with high damage, no damaged property, insured *)

(** C2 — Analysis 7 does not return the count of the claim.  For one
    insured, heavily damaged unit whose crash has a damage record the
    claim gives 0, and 1 when the Damage relation is empty; the code
    raises where the un-called [isNull] is rejected, and where it is
    taken as a constant it returns the list of collected rows, never an
    integer, with crash 1 in it although its damage record exists. *)
Theorem analysis_7_is_no_count :
  claimed_result_7 damaged_ford fence_of_crash_1 = Py.VInt 0
  /\ claimed_result_7 damaged_ford [] = Py.VInt 1
  /\ (forall e, result_7 (Raises e) damaged_ford fence_of_crash_1 = inl e)
  /\ result_7 (Constant true) damaged_ford fence_of_crash_1
     = inr (Py.VList [[("CRASH_ID", Py.CStr "1")]])
  /\ result_7 (Constant true) damaged_ford [] = inr (Py.VList [[("CRASH_ID", Py.CStr "1")]])
  /\ (forall op units damages n, result_7 op units damages <> inr (Py.VInt n)).
Proof.
  repeat split; try reflexivity.
  intros op units damages n. unfold result_7. destruct op; discriminate.
Qed.

(* ------------------------------------------------------------------ *)
(** ** The lines of the report *)

Lemma append_assoc (a b c : string) : (a ++ b) ++ c = a ++ (b ++ c).
Proof.
  induction a as [|x a IH]; simpl; [reflexivity|]. rewrite IH. reflexivity.
Qed.

Lemma count_newlines_append (a b : string) :
  Py.count_newlines (a ++ b) = Py.count_newlines a + Py.count_newlines b.
Proof.
  induction a as [|x a IH]; simpl; [reflexivity|]. rewrite IH. lia.
Qed.

Lemma plain_append (a b : string) : Py.plain a -> Py.plain b -> Py.plain (a ++ b).
Proof.
  unfold Py.plain. intros Ha Hb. rewrite count_newlines_append, Ha, Hb. reflexivity.
Qed.

(** A text without line break, followed by a line break, is one line. *)
Lemma append_empty (a : string) : a ++ "" = a.
Proof.
  induction a as [|x a IH]; simpl; [reflexivity|]. rewrite IH. reflexivity.
Qed.

Lemma lines_from_plain (a cur rest : string) :
  Py.plain a ->
  Py.lines_from cur (a ++ String Py.newline rest)
  = (cur ++ a) :: Py.lines_from EmptyString rest.
Proof.
  revert cur. induction a as [|c a IH]; intros cur Ha.
  - cbn [append Py.lines_from]. rewrite Ascii.eqb_refl, append_empty. reflexivity.
  - unfold Py.plain in Ha. cbn [Py.count_newlines] in Ha.
    destruct (Ascii.eqb c Py.newline) eqn:Hc; [discriminate|].
    cbn [append Py.lines_from]. rewrite Hc.
    rewrite (IH (cur ++ String c EmptyString) Ha), append_assoc. reflexivity.
Qed.

Lemma plain_uint (d : Decimal.uint) : Py.plain (NilEmpty.string_of_uint d).
Proof.
  unfold Py.plain. induction d; simpl; auto.
Qed.

Lemma plain_str_int (z : Z) : Py.plain (Py.str_int z).
Proof.
  unfold Py.str_int, NilZero.string_of_int. destruct (Z.to_int z) as [d|d].
  - unfold NilZero.string_of_uint. destruct d; try apply plain_uint. reflexivity.
  - unfold NilZero.string_of_uint.
    change (Py.plain ("-" ++ match d with
                             | Decimal.Nil => "0"
                             | _ => NilEmpty.string_of_uint d
                             end)).
    apply plain_append; [reflexivity|].
    destruct d; try apply plain_uint. reflexivity.
Qed.

(** [repr] escapes the line break, like every control character. *)
Lemma plain_repr_char (c : ascii) :
  Py.plain (Py.repr_char "'"%char c) /\ Py.plain (Py.repr_char Py.dquote c).
Proof.
  destruct c as [[|] [|] [|] [|] [|] [|] [|] [|]]; split; reflexivity.
Qed.

Lemma plain_repr_body (q : ascii) (s : string) :
  q = "'"%char \/ q = Py.dquote -> Py.plain (Py.repr_body q s).
Proof.
  intros Hq. induction s as [|c s IH]; simpl; [reflexivity|].
  apply plain_append; [|exact IH].
  destruct Hq as [-> | ->]; apply plain_repr_char.
Qed.

Lemma plain_repr_str (s : string) : Py.plain (Py.repr_str s).
Proof.
  unfold Py.repr_str, Py.repr_quote.
  destruct (Py.contains_char "'" s && negb (Py.contains_char Py.dquote s)).
  - change (Py.plain (String Py.dquote "" ++ Py.repr_body Py.dquote s ++ String Py.dquote "")).
    repeat apply plain_append; try reflexivity. apply plain_repr_body. right. reflexivity.
  - change (Py.plain ("'" ++ Py.repr_body "'" s ++ "'")).
    repeat apply plain_append; try reflexivity. apply plain_repr_body. left. reflexivity.
Qed.

Lemma plain_repr_cell (c : Py.cell) : Py.plain (Py.repr_cell c).
Proof.
  destruct c; simpl; [reflexivity | apply plain_repr_str | apply plain_str_int].
Qed.

Lemma plain_join_comma (parts : list string) :
  Forall Py.plain parts -> Py.plain (Py.join_comma parts).
Proof.
  induction 1 as [|p parts Hp Hparts IH]; [reflexivity|].
  destruct parts as [|p' parts]; [exact Hp|].
  change (Py.plain (p ++ ", " ++ Py.join_comma (p' :: parts))).
  repeat apply plain_append; try assumption. reflexivity.
Qed.

Lemma plain_repr_row (r : Py.Row) : Py.plain_row r -> Py.plain (Py.repr_row r).
Proof.
  intros Hr. unfold Py.repr_row.
  repeat apply plain_append; try reflexivity.
  apply plain_join_comma, Forall_map.
  eapply Forall_impl; [|exact Hr].
  intros [k v] Hk. cbn [fst snd] in *.
  apply plain_append; [exact Hk|].
  apply plain_append; [reflexivity | apply plain_repr_cell].
Qed.

Lemma plain_format_res (v : Py.value) : Py.plain_value v -> Py.plain (Py.format_res v).
Proof.
  destruct v as [z|r|rs]; simpl; intros Hv.
  - apply plain_str_int.
  - apply plain_repr_row, Hv.
  - unfold Py.repr_list. repeat apply plain_append; try reflexivity.
    apply plain_join_comma, Forall_map.
    eapply Forall_impl; [|exact Hv]. intros r. apply plain_repr_row.
Qed.

Lemma Forall_firstn {A} (P : A -> Prop) (n : nat) (l : list A) :
  Forall P l -> Forall P (firstn n l).
Proof.
  revert l. induction n as [|n IH]; intros l Hl; simpl; [constructor|].
  destruct Hl as [|x l Hx Hl]; constructor; [exact Hx | apply IH, Hl].
Qed.

Lemma Forall_map_all {A B} (P : B -> Prop) (f : A -> B) (l : list A) :
  (forall x, P (f x)) -> Forall P (map f l).
Proof.
  intros Hf. induction l as [|x l IH]; simpl; constructor; [apply Hf | exact IH].
Qed.

Lemma plain_row_single (k : string) (c : Py.cell) : Py.plain k -> Py.plain_row [(k, c)].
Proof. intros Hk. repeat constructor. exact Hk. Qed.





Lemma plain_result_8 (units : list Unit.t) (charges : list Charge.t) (persons : list Person.t) :
  Py.plain_value (result_8 units charges persons).
Proof.
  apply Forall_firstn, Forall_map_all. intros g. apply plain_row_single. reflexivity.
Qed.

(** A label and a rendered result, closed by a line break, are one line. *)
Lemma lines_entry (label res rest : string) :
  Py.plain label -> Py.plain res ->
  Py.lines_from EmptyString (label ++ res ++ String Py.newline rest)
  = (label ++ res) :: Py.lines_from EmptyString rest.
Proof.
  intros Hl Hr. rewrite <- append_assoc.
  apply (lines_from_plain (label ++ res) EmptyString rest), plain_append; assumption.
Qed.

(* ------------------------------------------------------------------ *)
(** ** The scenarios of the specification, evaluated *)

Example analysis_2_scenario : result_2 three_body_styles = Py.VInt 2.
Proof. reflexivity. Qed.

Example analysis_4_seventeen_units :
  Py.format_res (result_4 decimal seventeen_units)
  = "[Row(VEH_MAKE_ID='M13'), Row(VEH_MAKE_ID='M12'), Row(VEH_MAKE_ID='M11'), "
    ++ "Row(VEH_MAKE_ID='M10'), Row(VEH_MAKE_ID='M9'), Row(VEH_MAKE_ID='M8'), "
    ++ "Row(VEH_MAKE_ID='M7'), Row(VEH_MAKE_ID='M6'), Row(VEH_MAKE_ID='M5'), "
    ++ "Row(VEH_MAKE_ID='M4'), Row(VEH_MAKE_ID='M3')]".
Proof. vm_compute. reflexivity. Qed.

Example analysis_6_sample :
  result_6 sample_persons sample_units = Py.VList [[("DRVR_ZIP", Py.CStr "78521")]].
Proof. reflexivity. Qed.

Example analysis_8_empty_charges : result_8 sample_units [] sample_persons = Py.VList [].
Proof. reflexivity. Qed.

Example analysis_8_sample :
  result_8 sample_units sample_charges sample_persons
  = Py.VList [[("VEH_MAKE_ID", Py.CStr "FORD")]].
Proof. vm_compute. reflexivity. Qed.

(* ------------------------------------------------------------------ *)
(** ** Grouping and counting *)

Lemma cell_eqb_eq (a b : option string) : Sql.cell_eqb a b = true <-> a = b.
Proof.
  destruct a as [x|], b as [y|]; simpl; split; intros H; try congruence.
  - apply String.eqb_eq in H. congruence.
  - injection H as ->. apply String.eqb_refl.
Qed.

Lemma pair_eqb_eq (a b : option string * option string) : pair_eqb a b = true <-> a = b.
Proof.
  destruct a as [a1 a2], b as [b1 b2]. unfold pair_eqb. simpl.
  rewrite andb_true_iff, !cell_eqb_eq. split.
  - intros [-> ->]. reflexivity.
  - intros [= -> ->]. split; reflexivity.
Qed.

Section GroupFacts.

Context {R K : Type} (eqb : K -> K -> bool).
Hypothesis eqb_eq : forall a b, eqb a b = true <-> a = b.
Context (key : R -> K) (counted : R -> bool).

Lemma eqb_refl (k : K) : eqb k k = true.
Proof. apply eqb_eq. reflexivity. Qed.

Lemma eqb_neq (a b : K) : a <> b -> eqb a b = false.
Proof.
  intros H. destruct (eqb a b) eqn:E; [|reflexivity]. apply eqb_eq in E. contradiction.
Qed.

Lemma bump_keys (k : K) (inc : Z) (groups : list (K * Z)) :
  map fst (Sql.bump eqb k inc groups)
  = if existsb (eqb k) (map fst groups) then map fst groups else (map fst groups ++ [k])%list.
Proof.
  induction groups as [|[k' n] groups IH]; simpl; [reflexivity|].
  destruct (eqb k k') eqn:E; simpl; [|rewrite IH].
  - apply eqb_eq in E. subst. reflexivity.
  - destruct (existsb (eqb k) (map fst groups)); reflexivity.
Qed.

Lemma existsb_eqb_In (k : K) (ks : list K) : existsb (eqb k) ks = true <-> In k ks.
Proof.
  rewrite existsb_exists. split.
  - intros (x & Hx & E). apply eqb_eq in E. subst. exact Hx.
  - intros H. exists k. split; [exact H | apply eqb_refl].
Qed.

Lemma bump_In (k : K) (inc : Z) (groups : list (K * Z)) (k' : K) (n' : Z) :
  NoDup (map fst groups) ->
  In (k', n') (Sql.bump eqb k inc groups) ->
  (k' <> k /\ In (k', n') groups)
  \/ (k' = k /\ ((exists n, In (k, n) groups /\ n' = (n + inc)%Z)
                 \/ (~ In k (map fst groups) /\ n' = inc))).
Proof.
  induction groups as [|[k0 n0] groups IH]; simpl; intros Hnd Hin.
  - destruct Hin as [[= <- <-]|[]]. right. split; [reflexivity|]. right. tauto.
  - inversion Hnd as [|? ? Hnotin Hnd']; subst.
    destruct (eqb k k0) eqn:E.
    + apply eqb_eq in E. subst k0.
      destruct Hin as [[= <- <-]|Hin].
      * right. split; [reflexivity|]. left. exists n0. split; [left; reflexivity|reflexivity].
      * left. split; [|right; exact Hin].
        intros ->. apply Hnotin. apply (in_map fst) in Hin. exact Hin.
    + assert (Hne : k <> k0) by (intros ->; rewrite eqb_refl in E; discriminate).
      destruct Hin as [[= <- <-]|Hin].
      * left. split; [congruence | left; reflexivity].
      * destruct (IH Hnd' Hin) as [[Hk Hi]|[-> [(n & Hi & ->)|[Hno ->]]]].
        -- left. split; [exact Hk | right; exact Hi].
        -- right. split; [reflexivity|]. left. exists n. split; [right; exact Hi|reflexivity].
        -- right. split; [reflexivity|]. right. split; [|reflexivity].
           intros [->|H]; [congruence | exact (Hno H)].
Qed.

Lemma tally_app (k : K) (rows : list R) (r : R) :
  tally eqb key counted k (rows ++ [r])
  = (tally eqb key counted k rows + (if eqb (key r) k && counted r then 1 else 0))%Z.
Proof.
  unfold tally, Sql.count. rewrite filter_app, length_app. simpl.
  destruct (eqb (key r) k && counted r); simpl; lia.
Qed.

Lemma tally_absent (k : K) (rows : list R) :
  (forall r, In r rows -> key r <> k) -> tally eqb key counted k rows = 0%Z.
Proof.
  intros H. unfold tally, Sql.count.
  induction rows as [|r rows IH]; [reflexivity|]. simpl.
  rewrite (eqb_neq _ _ (H r (or_introl eq_refl))). simpl.
  apply IH. intros r' Hr'. apply H. right. exact Hr'.
Qed.

Lemma grouped_step (rows : list R) (groups : list (K * Z)) (r : R) :
  grouped eqb key counted rows groups ->
  grouped eqb key counted (rows ++ [r])
          (Sql.bump eqb (key r) (if counted r then 1%Z else 0%Z) groups).
Proof.
  intros (Hnd & Hcount & Hkeys). split; [|split].
  - rewrite bump_keys.
    destruct (existsb (eqb (key r)) (map fst groups)) eqn:E; [exact Hnd|].
    assert (Hno : ~ In (key r) (map fst groups)).
    { intros H. apply existsb_eqb_In in H. congruence. }
    clear - Hnd Hno. induction (map fst groups) as [|x l IH]; simpl.
    + constructor; [intros []|constructor].
    + inversion Hnd; subst. constructor.
      * rewrite in_app_iff. intros [H|[H|[]]]; [contradiction|].
        apply Hno. left. symmetry. exact H.
      * apply IH; [assumption|]. intros H. apply Hno. right. exact H.
  - intros k n Hin.
    destruct (bump_In _ _ _ _ _ Hnd Hin) as [[Hk Hi]|[-> [(n0 & Hi & ->)|[Hno ->]]]].
    + destruct (Hcount _ _ Hi) as [-> (r0 & Hr0 & Hkey)]. split.
      * rewrite tally_app, (eqb_neq (key r) k) by congruence. simpl. lia.
      * exists r0. split; [apply in_or_app; left; exact Hr0 | exact Hkey].
    + destruct (Hcount _ _ Hi) as [-> _]. split.
      * rewrite tally_app, eqb_refl. simpl. destruct (counted r); reflexivity.
      * exists r. split; [apply in_or_app; right; left; reflexivity | reflexivity].
    + split.
      * rewrite tally_app, eqb_refl, tally_absent.
        -- simpl. destruct (counted r); reflexivity.
        -- intros r0 Hr0 Hkey. apply Hno. rewrite <- Hkey. apply Hkeys, Hr0.
      * exists r. split; [apply in_or_app; right; left; reflexivity | reflexivity].
  - intros r0 Hr0. rewrite bump_keys.
    apply in_app_or in Hr0. destruct Hr0 as [Hr0|[<-|[]]].
    + destruct (existsb (eqb (key r)) (map fst groups));
        [|apply in_or_app; left]; apply Hkeys, Hr0.
    + destruct (existsb (eqb (key r)) (map fst groups)) eqn:E.
      * apply existsb_eqb_In, E.
      * apply in_or_app. right. left. reflexivity.
Qed.

Lemma grouped_fold (rows done : list R) (groups : list (K * Z)) :
  grouped eqb key counted done groups ->
  grouped eqb key counted (done ++ rows)
          (fold_left (fun groups r =>
                        Sql.bump eqb (key r) (if counted r then 1%Z else 0%Z) groups)
                     rows groups).
Proof.
  revert done groups. induction rows as [|r rows IH]; intros done groups H; simpl.
  - rewrite app_nil_r. exact H.
  - replace (done ++ r :: rows)%list with ((done ++ [r]) ++ rows)%list
      by (rewrite <- app_assoc; reflexivity).
    apply IH, grouped_step, H.
Qed.

(** [groupBy(key).agg(count(col))]: one row per key that occurs, no key
    twice, each with the number of its rows whose [col] is not NULL. *)
Lemma group_count_grouped (rows : list R) :
  grouped eqb key counted rows (Sql.group_count eqb key counted rows).
Proof.
  apply (grouped_fold rows [] []). split; [constructor|]. split.
  - intros k n [].
  - intros r [].
Qed.

End GroupFacts.

(* ------------------------------------------------------------------ *)
(** ** Membership in filters and joins *)

Lemma where_In {R} (cond : R -> option bool) (rows : list R) (r : R) :
  In r (Sql.where_ cond rows) <-> In r rows /\ cond r = Some true.
Proof.
  unfold Sql.where_. rewrite filter_In. unfold Sql.holds.
  destruct (cond r) as [[|]|]; intuition congruence.
Qed.

Lemma inner_join_In {L R} (kl : L -> option string) (kr : R -> option string)
      (ls : list L) (rs : list R) (l : L) (r : R) :
  In (l, r) (Sql.inner_join kl kr ls rs)
  <-> In l ls /\ In r rs /\ exists c, kl l = Some c /\ kr r = Some c.
Proof.
  unfold Sql.inner_join. rewrite in_flat_map. split.
  - intros (l0 & Hl0 & Hin). apply in_map_iff in Hin.
    destruct Hin as (r0 & [= <- <-] & Hr0). apply filter_In in Hr0.
    destruct Hr0 as [Hr0 Hm]. split; [exact Hl0|]. split; [exact Hr0|].
    unfold Sql.key_match in Hm.
    destruct (kl l0) as [a|], (kr r0) as [b|]; try discriminate.
    apply String.eqb_eq in Hm. subst. exists b. split; reflexivity.
  - intros (Hl & Hr & c & Hkl & Hkr). exists l. split; [exact Hl|].
    apply in_map. apply filter_In. split; [exact Hr|].
    unfold Sql.key_match. rewrite Hkl, Hkr. apply String.eqb_refl.
Qed.

Lemma and3_true (a b : option bool) :
  Sql.and3 a b = Some true <-> a = Some true /\ b = Some true.
Proof. destruct a as [[|]|], b as [[|]|]; simpl; intuition congruence. Qed.

Lemma or3_true (a b : option bool) :
  Sql.or3 a b = Some true <-> a = Some true \/ b = Some true.
Proof. destruct a as [[|]|], b as [[|]|]; simpl; intuition congruence. Qed.

Lemma eq_lit_true (c : option string) (lit : string) :
  Sql.eq_lit c lit = Some true <-> c = Some lit.
Proof.
  destruct c as [s|]; simpl; [|intuition congruence].
  destruct (String.eqb_spec s lit); intuition congruence.
Qed.

Lemma isin_true (c : option string) (vals : list (option string)) :
  Sql.isin c vals = Some true <-> c <> None /\ In c vals.
Proof.
  unfold Sql.isin. destruct c as [s|]; [|intuition congruence].
  destruct (existsb (Sql.cell_eqb (Some s)) vals) eqn:E.
  - apply (existsb_eqb_In Sql.cell_eqb cell_eqb_eq) in E. intuition congruence.
  - assert (~ In (Some s) vals).
    { intros H. apply (existsb_eqb_In Sql.cell_eqb cell_eqb_eq) in H. congruence. }
    destruct (existsb (Sql.cell_eqb None) vals); intuition congruence.
Qed.

Lemma cell_of_inj (a b : option string) : cell_of a = cell_of b -> a = b.
Proof. destruct a, b; simpl; congruence. Qed.

(* ------------------------------------------------------------------ *)
(** ** Analysis 3, in full *)

(** A group of analysis 3 carries the number of FEMALE rows of its state
    and stems from one of them. *)
Lemma female_group (persons : list Person.t) (state : option string) (n : Z) :
  In (state, n) (female_crash_count persons) ->
  n = female_rows persons state
  /\ exists p, In p persons
               /\ Person.PRSN_GNDR_ID p = Some "FEMALE"
               /\ Person.DRVR_LIC_STATE_ID p = state.
Proof.
  intros Hin.
  destruct (group_count_grouped Sql.cell_eqb cell_eqb_eq Person.DRVR_LIC_STATE_ID
              (fun p => Sql.not_null (Person.CRASH_ID p)) (Sql.where_ female persons))
    as (_ & Hcount & _).
  destruct (Hcount _ _ Hin) as [Hn (p & Hp & Hstate)].
  split; [exact Hn|]. exists p. apply where_In in Hp. destruct Hp as [Hp Hf].
  split; [exact Hp|]. split; [|exact Hstate]. apply eq_lit_true. exact Hf.
Qed.

(** A state without a group has no FEMALE row to count. *)
Lemma female_rows_absent (persons : list Person.t) (state : option string) :
  ~ In state (map fst (female_crash_count persons)) -> female_rows persons state = 0%Z.
Proof.
  intros Hno.
  destruct (group_count_grouped Sql.cell_eqb cell_eqb_eq Person.DRVR_LIC_STATE_ID
              (fun p => Sql.not_null (Person.CRASH_ID p)) (Sql.where_ female persons))
    as (_ & _ & Hkeys).
  apply (tally_absent Sql.cell_eqb cell_eqb_eq).
  intros r Hr Hkey. apply Hno. rewrite <- Hkey. apply Hkeys, Hr.
Qed.

Lemma tally_nonneg {R K} (eqb : K -> K -> bool) (key : R -> K) (counted : R -> bool)
      (k : K) (rows : list R) :
  (0 <= tally eqb key counted k rows)%Z.
Proof. unfold tally, Sql.count. lia. Qed.

(** X1 — When analysis 3 returns, it returns the licence state of some
    FEMALE row, and no state has more FEMALE rows (with a [CRASH_ID])
    than the state returned. *)
Theorem analysis_3_most_female_rows (persons : list Person.t) (r3 : Py.value) :
  result_3 persons = inr r3 ->
  exists state : option string,
    r3 = Py.VRow [("DRVR_LIC_STATE_ID", cell_of state)]
    /\ (exists p, In p persons
                  /\ Person.PRSN_GNDR_ID p = Some "FEMALE"
                  /\ Person.DRVR_LIC_STATE_ID p = state)
    /\ forall other, (female_rows persons other <= female_rows persons state)%Z.
Proof.
  intros H3.
  destruct (result_3_maximal_count _ _ H3) as (state & n & -> & Hin & Hmax).
  destruct (female_group _ _ _ Hin) as [Hn Hrow].
  exists state. split; [reflexivity|]. split; [exact Hrow|].
  intros other. rewrite <- Hn.
  destruct (existsb (Sql.cell_eqb other) (map fst (female_crash_count persons))) eqn:E.
  - apply (existsb_eqb_In Sql.cell_eqb cell_eqb_eq) in E. apply in_map_iff in E.
    destruct E as ([k m] & Hk & Hg). simpl in Hk. subst k.
    destruct (female_group _ _ _ Hg) as [<- _]. exact (Hmax _ Hg).
  - rewrite female_rows_absent.
    + rewrite Hn. apply tally_nonneg.
    + intros H. apply (existsb_eqb_In Sql.cell_eqb cell_eqb_eq) in H. congruence.
Qed.

Lemma analysis_3_most_female_rows_witness :
  exists state : option string,
    Py.VRow [("DRVR_LIC_STATE_ID", Py.CStr "TX")]
    = Py.VRow [("DRVR_LIC_STATE_ID", cell_of state)]
    /\ (exists p, In p three_in_one_crash
                  /\ Person.PRSN_GNDR_ID p = Some "FEMALE"
                  /\ Person.DRVR_LIC_STATE_ID p = state)
    /\ forall other,
        (female_rows three_in_one_crash other <= female_rows three_in_one_crash state)%Z.
Proof.
  apply (analysis_3_most_female_rows three_in_one_crash). reflexivity.
Defined.

(** X2 — Analysis 3 returns a row exactly when the Person relation holds
    a FEMALE row; otherwise it raises [IndexError]. *)
Theorem analysis_3_returns_iff_female (persons : list Person.t) :
  ((exists p, In p persons /\ Person.PRSN_GNDR_ID p = Some "FEMALE")
   <-> exists r3, result_3 persons = inr r3)
  /\ ((forall p, In p persons -> Person.PRSN_GNDR_ID p <> Some "FEMALE")
      <-> result_3 persons = inl (Py.IndexError "list index out of range")).
Proof.
  assert (Hfwd : (exists p, In p persons /\ Person.PRSN_GNDR_ID p = Some "FEMALE")
                 -> exists r3, result_3 persons = inr r3).
  { intros (p & Hp & Hg).
    assert (Hin : In p (Sql.where_ female persons)).
    { apply where_In. split; [exact Hp|]. apply eq_lit_true. exact Hg. }
    destruct (group_count_grouped Sql.cell_eqb cell_eqb_eq Person.DRVR_LIC_STATE_ID
                (fun p => Sql.not_null (Person.CRASH_ID p)) (Sql.where_ female persons))
      as (_ & _ & Hkeys).
    fold (female_crash_count persons) in Hkeys.
    apply Hkeys in Hin.
    pose proof (orderBy_desc_length by_count (female_crash_count persons)) as Hlen.
    unfold result_3, top_female_states.
    destruct (Sql.orderBy_desc by_count (female_crash_count persons)) as [|g rest].
    - destruct (female_crash_count persons); [destruct Hin | discriminate].
    - simpl. eexists. reflexivity. }
  assert (Hbwd : forall r3, result_3 persons = inr r3 ->
                 exists p, In p persons /\ Person.PRSN_GNDR_ID p = Some "FEMALE").
  { intros r3 H3.
    destruct (result_3_maximal_count _ _ H3) as (state & n & _ & Hin & _).
    destruct (female_group _ _ _ Hin) as [_ (p & Hp & Hg & _)].
    exists p. split; assumption. }
  split; [split; [exact Hfwd | intros [r3 H3]; exact (Hbwd r3 H3)]|].
  split.
  - intros Hnone. unfold result_3, top_female_states, female_crash_count.
    rewrite where_none; [reflexivity|].
    intros p Hp. apply female_false, Hnone, Hp.
  - intros Herr p Hp Hg. destruct (Hfwd (ex_intro _ p (conj Hp Hg))) as [r3 H3].
    congruence.
Qed.

(* ------------------------------------------------------------------ *)
(** ** The first [n] groups by count *)

Lemma StronglySorted_app_dominates {A} (rel : A -> A -> Prop) (a b : list A) :
  StronglySorted rel (a ++ b) -> forall x y, In x a -> In y b -> rel x y.
Proof.
  induction a as [|h a IH]; simpl; intros Hs x y Hx Hy; [destruct Hx|].
  inversion Hs as [|? ? Hs' Hall]; subst.
  destruct Hx as [<-|Hx].
  - rewrite Forall_forall in Hall. apply Hall, in_or_app. right. exact Hy.
  - exact (IH Hs' x y Hx Hy).
Qed.

Lemma In_firstn {A} (n : nat) (l : list A) (x : A) : In x (firstn n l) -> In x l.
Proof.
  intros H. rewrite <- (firstn_skipn n l). apply in_or_app. left. exact H.
Qed.

Lemma NoDup_firstn {A} (n : nat) (l : list A) : NoDup l -> NoDup (firstn n l).
Proof.
  intros H. rewrite <- (firstn_skipn n l) in H. exact (NoDup_app_remove_r _ _ H).
Qed.

Section TopFacts.

Context {R K : Type} (eqb : K -> K -> bool).
Hypothesis eqb_eq : forall a b, eqb a b = true <-> a = b.
Context (key : R -> K) (counted : R -> bool) (rows : list R) (n : nat).

(** The keys of the [n] groups that [orderBy(count, ascending=False)
    .limit(n)] keeps: at most [n], no key twice, each the key of a row,
    and none with a smaller tally than a key left out. *)
Lemma top_keys_spec :
  let top := map fst (firstn n (Sql.orderBy_desc by_count
                                  (Sql.group_count eqb key counted rows))) in
  List.length top <= n
  /\ NoDup top
  /\ (forall k, In k top -> exists r, In r rows /\ key r = k)
  /\ (forall k k', In k top -> ~ In k' top ->
                   (tally eqb key counted k' rows <= tally eqb key counted k rows)%Z).
Proof.
  intros top.
  set (groups := Sql.group_count eqb key counted rows) in *.
  set (sorted := Sql.orderBy_desc by_count groups) in *.
  destruct (group_count_grouped eqb eqb_eq key counted rows) as (Hnd & Hcount & Hkeys).
  fold groups in Hnd, Hcount, Hkeys.
  pose proof (orderBy_desc_Permutation by_count groups) as Hperm. fold sorted in Hperm.
  assert (Hsorted : StronglySorted (Sql.desc by_count) sorted).
  { apply Sorted_StronglySorted; [intros a b c; apply desc_by_count_trans|].
    apply orderBy_desc_Sorted. }
  assert (Hndk : NoDup (map fst sorted)).
  { apply (Permutation_NoDup (Permutation_map fst Hperm)), Hnd. }
  assert (Htop : forall k, In k top -> exists c, In (k, c) (firstn n sorted)
                                                  /\ In (k, c) groups).
  { intros k Hk. apply in_map_iff in Hk. destruct Hk as ([k0 c] & <- & Hin).
    exists c. split; [exact Hin|].
    apply (Permutation_in _ (Permutation_sym Hperm)), (In_firstn n), Hin. }
  split; [unfold top; rewrite length_map; apply firstn_le_length|].
  split; [unfold top; rewrite <- firstn_map; apply NoDup_firstn, Hndk|].
  split.
  - intros k Hk. destruct (Htop k Hk) as (c & _ & Hg). apply (Hcount _ _ Hg).
  - intros k k' Hk Hk'. destruct (Htop k Hk) as (c & Hfirst & Hg).
    destruct (Hcount _ _ Hg) as [Hc _]. rewrite <- Hc.
    destruct (existsb (eqb k') (map fst groups)) eqn:E.
    + apply (existsb_eqb_In eqb eqb_eq) in E. apply in_map_iff in E.
      destruct E as ([k0 c'] & Hk0 & Hg'). simpl in Hk0. subst k0.
      destruct (Hcount _ _ Hg') as [Hc' _]. rewrite <- Hc'.
      assert (Hrest : In (k', c') (skipn n sorted)).
      { apply (Permutation_in _ Hperm) in Hg'.
        rewrite <- (firstn_skipn n sorted) in Hg'. apply in_app_or in Hg'.
        destruct Hg' as [Hg'|Hg']; [|exact Hg'].
        exfalso. apply Hk'. apply in_map_iff. exists (k', c'). split; [reflexivity|exact Hg']. }
      rewrite <- (firstn_skipn n sorted) in Hsorted.
      exact (StronglySorted_app_dominates _ _ _ Hsorted _ _ Hfirst Hrest).
    + rewrite (tally_absent eqb eqb_eq).
      * rewrite Hc. apply tally_nonneg.
      * intros r Hr Hkey. apply Hkeys in Hr. rewrite Hkey in Hr.
        apply (existsb_eqb_In eqb eqb_eq) in Hr. congruence.
Qed.

End TopFacts.

(** The rows [select(name).limit(n).collect()] makes of sorted groups. *)
Lemma top_rows_of_keys {K} (name : string) (cell : K -> Py.cell) (n : nat)
      (sorted : list (K * Z)) :
  Sql.limit n (map (fun g => [(name, cell (fst g))]) sorted)
  = map (fun k => [(name, cell k)]) (map fst (firstn n sorted)).
Proof.
  unfold Sql.limit. rewrite firstn_map, map_map. reflexivity.
Qed.

(* ------------------------------------------------------------------ *)
(** ** Analysis 6: zip codes of alcohol-positive drivers of passenger cars *)

Lemma alcohol_rows_In (persons : list Person.t) (units : list Unit.t)
      (p : Person.t) (u : Unit.t) :
  In (p, u) (alcohol_rows persons units)
  <-> In p persons /\ In u units
      /\ (exists c, Person.CRASH_ID p = Some c /\ Unit.CRASH_ID u = Some c)
      /\ (Unit.VEH_BODY_STYL_ID u = Some "PASSENGER CAR, 4-DOOR"
          \/ Unit.VEH_BODY_STYL_ID u = Some "PASSENGER CAR, 2-DOOR")
      /\ Person.PRSN_ALC_RSLT_ID p = Some "Positive".
Proof.
  unfold alcohol_rows, alcohol_passenger_car.
  rewrite where_In, inner_join_In, and3_true, or3_true, !eq_lit_true. simpl. tauto.
Qed.

(** X3 — Analysis 6 returns at most five zip codes, none twice; each is
    the [DRVR_ZIP] of a person with a "Positive" alcohol result whose
    crash has a 2-door or 4-door passenger car; and no zip code left out
    has more such (person, unit) rows than one that is returned. *)
Theorem analysis_6_top_zip_codes (persons : list Person.t) (units : list Unit.t) :
  exists zips : list (option string),
    result_6 persons units = Py.VList (map (fun z => [("DRVR_ZIP", cell_of z)]) zips)
    /\ List.length zips <= 5
    /\ NoDup zips
    /\ (forall z, In z zips ->
          exists p u,
            In p persons /\ In u units
            /\ Person.DRVR_ZIP p = z
            /\ (exists c, Person.CRASH_ID p = Some c /\ Unit.CRASH_ID u = Some c)
            /\ (Unit.VEH_BODY_STYL_ID u = Some "PASSENGER CAR, 4-DOOR"
                \/ Unit.VEH_BODY_STYL_ID u = Some "PASSENGER CAR, 2-DOOR")
            /\ Person.PRSN_ALC_RSLT_ID p = Some "Positive")
    /\ (forall z z', In z zips -> ~ In z' zips ->
          (zip_crashes persons units z' <= zip_crashes persons units z)%Z).
Proof.
  destruct (top_keys_spec Sql.cell_eqb cell_eqb_eq
              (fun pu : Person.t * Unit.t => Person.DRVR_ZIP (fst pu))
              (fun pu => Sql.not_null (Person.CRASH_ID (fst pu)))
              (alcohol_rows persons units) 5) as (Hlen & Hnd & Hrow & Hmax).
  eexists. split.
  { unfold result_6. rewrite top_rows_of_keys. reflexivity. }
  split; [exact Hlen|]. split; [exact Hnd|]. split; [|exact Hmax].
  intros z Hz. destruct (Hrow z Hz) as ([p u] & Hin & Hkey).
  apply alcohol_rows_In in Hin. exists p, u. simpl in Hkey. tauto.
Qed.

(* ------------------------------------------------------------------ *)
(** ** Analysis 8: the colours, the states, the makes *)

Lemma StronglySorted_filter {A} (rel : A -> A -> Prop) (f : A -> bool) (l : list A) :
  StronglySorted rel l -> StronglySorted rel (filter f l).
Proof.
  induction 1 as [|x l Hs IH Hall]; simpl; [constructor|].
  destruct (f x); [|exact IH]. constructor; [exact IH|].
  rewrite Forall_forall in *. intros y Hy. apply filter_In in Hy. apply Hall, Hy.
Qed.

Lemma NoDup_map_filter {A B} (g : A -> B) (f : A -> bool) (l : list A) :
  NoDup (map g l) -> NoDup (map g (filter f l)).
Proof.
  induction l as [|x l IH]; simpl; intros H; [constructor|].
  inversion H as [|? ? Hno Hnd]; subst.
  destruct (f x); simpl; [|exact (IH Hnd)].
  constructor; [|exact (IH Hnd)].
  intros Hin. apply Hno. apply in_map_iff in Hin. destruct Hin as (y & Hy & Hyin).
  apply filter_In in Hyin. apply in_map_iff. exists y. tauto.
Qed.

(** X4 — The colours analysis 8 admits: at most ten, none twice, each
    the colour of a unit, and no colour left out is on more units than a
    colour of the list. *)
Theorem top_10_colors_spec (units : list Unit.t) :
  List.length (top_10_colors units) <= 10
  /\ NoDup (top_10_colors units)
  /\ (forall c, In c (top_10_colors units) -> exists u, In u units /\ Unit.VEH_COLOR_ID u = c)
  /\ (forall c c', In c (top_10_colors units) -> ~ In c' (top_10_colors units) ->
                   (colour_rows units c' <= colour_rows units c)%Z).
Proof.
  exact (top_keys_spec Sql.cell_eqb cell_eqb_eq Unit.VEH_COLOR_ID
           (fun u => Sql.not_null (Unit.CRASH_ID u)) units 10).
Qed.

Lemma valid_state (s : option string) :
  Sql.not3 (Sql.isin s invalid_states) = Some true
  <-> exists name, s = Some name /\ name <> "NA" /\ name <> "Unknown".
Proof.
  destruct s as [name|]; simpl.
  - destruct (String.eqb_spec name "NA"), (String.eqb_spec name "Unknown"); simpl; split;
      try discriminate; try (intros (n' & [= <-] & H1 & H2); congruence).
    intros _. exists name. auto.
  - split; [discriminate|]. intros (n' & H & _). discriminate.
Qed.

Lemma top_25_states_facts (persons : list Person.t) :
  List.length (top_25_states_highest_offences persons) <= 25
  /\ NoDup (top_25_states_highest_offences persons)
  /\ (forall s, In s (top_25_states_highest_offences persons) ->
                (exists name, s = Some name /\ name <> "NA" /\ name <> "Unknown")
                /\ exists p, In p persons /\ Person.DRVR_LIC_STATE_ID p = s)
  /\ (forall s name, In s (top_25_states_highest_offences persons) ->
                     name <> "NA" -> name <> "Unknown" ->
                     ~ In (Some name) (top_25_states_highest_offences persons) ->
                     (state_rows persons (Some name) <= state_rows persons s)%Z).
Proof.
  unfold top_25_states_highest_offences, Sql.limit.
  set (groups := Sql.group_count Sql.cell_eqb Person.DRVR_LIC_STATE_ID
                                 (fun p => Sql.not_null (Person.CRASH_ID p)) persons).
  set (sorted := Sql.orderBy_desc by_count groups).
  set (valid := Sql.where_ (fun g : option string * Z =>
                              Sql.not3 (Sql.isin (fst g) invalid_states)) sorted).
  destruct (group_count_grouped Sql.cell_eqb cell_eqb_eq Person.DRVR_LIC_STATE_ID
              (fun p => Sql.not_null (Person.CRASH_ID p)) persons) as (Hnd & Hcount & Hkeys).
  fold groups in Hnd, Hcount, Hkeys.
  pose proof (orderBy_desc_Permutation by_count groups) as Hperm. fold sorted in Hperm.
  assert (Hsorted : StronglySorted (Sql.desc by_count) valid).
  { apply StronglySorted_filter, Sorted_StronglySorted;
      [intros a b c; apply desc_by_count_trans | apply orderBy_desc_Sorted]. }
  assert (Hndk : NoDup (map fst valid)).
  { apply NoDup_map_filter, (Permutation_NoDup (Permutation_map fst Hperm)), Hnd. }
  assert (Hvalid : forall g, In g valid <->
                             In g groups /\ Sql.not3 (Sql.isin (fst g) invalid_states) = Some true).
  { intros g. unfold valid. rewrite where_In. split; intros [H1 H2]; (split; [|exact H2]).
    - apply (Permutation_in _ (Permutation_sym Hperm)), H1.
    - apply (Permutation_in _ Hperm), H1. }
  assert (Htop : forall s, In s (map fst (firstn 25 valid)) ->
                           exists c, In (s, c) (firstn 25 valid) /\ In (s, c) valid).
  { intros s Hs. apply in_map_iff in Hs. destruct Hs as ([s0 c] & <- & Hin).
    exists c. split; [exact Hin | apply (In_firstn 25), Hin]. }
  split; [rewrite length_map; apply firstn_le_length|].
  split; [rewrite <- firstn_map; apply NoDup_firstn, Hndk|].
  split.
  - intros s Hs. destruct (Htop s Hs) as (c & _ & Hv). apply Hvalid in Hv.
    destruct Hv as [Hg Hok]. split; [apply valid_state, Hok|]. apply (Hcount _ _ Hg).
  - intros s name Hs Hna Hunk Hout. destruct (Htop s Hs) as (c & Hfirst & Hv).
    apply Hvalid in Hv. destruct Hv as [Hg _].
    destruct (Hcount _ _ Hg) as [Hc _]. unfold state_rows. rewrite <- Hc.
    destruct (existsb (Sql.cell_eqb (Some name)) (map fst groups)) eqn:E.
    + apply (existsb_eqb_In Sql.cell_eqb cell_eqb_eq) in E. apply in_map_iff in E.
      destruct E as ([k0 c'] & Hk0 & Hg'). simpl in Hk0. subst k0.
      destruct (Hcount _ _ Hg') as [Hc' _]. rewrite <- Hc'.
      assert (Hv' : In (Some name, c') valid).
      { apply Hvalid. split; [exact Hg'|]. apply valid_state. exists name. auto. }
      assert (Hrest : In (Some name, c') (skipn 25 valid)).
      { rewrite <- (firstn_skipn 25 valid) in Hv'. apply in_app_or in Hv'.
        destruct Hv' as [Hv'|Hv']; [|exact Hv'].
        exfalso. apply Hout. apply in_map_iff.
        exists (Some name, c'). split; [reflexivity|exact Hv']. }
      rewrite <- (firstn_skipn 25 valid) in Hsorted.
      exact (StronglySorted_app_dominates _ _ _ Hsorted _ _ Hfirst Hrest).
    + rewrite (tally_absent Sql.cell_eqb cell_eqb_eq).
      * rewrite Hc. apply tally_nonneg.
      * intros r Hr Hkey. apply Hkeys in Hr. rewrite Hkey in Hr.
        apply (existsb_eqb_In Sql.cell_eqb cell_eqb_eq) in Hr. congruence.
Qed.

(** X5 — The licence states analysis 8 admits: at most 25, none twice,
    each the state of a Person row, never NULL, "NA" or "Unknown"; and no
    other valid state has more Person rows than a state of the list. *)
Theorem top_25_states_spec (persons : list Person.t) :
  List.length (top_25_states_highest_offences persons) <= 25
  /\ NoDup (top_25_states_highest_offences persons)
  /\ (forall s, In s (top_25_states_highest_offences persons) ->
                (exists name, s = Some name /\ name <> "NA" /\ name <> "Unknown")
                /\ exists p, In p persons /\ Person.DRVR_LIC_STATE_ID p = s)
  /\ (forall s name, In s (top_25_states_highest_offences persons) ->
                     name <> "NA" -> name <> "Unknown" ->
                     ~ In (Some name) (top_25_states_highest_offences persons) ->
                     (state_rows persons (Some name) <= state_rows persons s)%Z).
Proof. exact (top_25_states_facts persons). Qed.

Lemma prefix_app (sub s : string) :
  String.prefix sub s = true <-> exists rest, s = sub ++ rest.
Proof.
  revert s. induction sub as [|c sub IH]; intros s.
  - split; [intros _; exists s; reflexivity | intros _; destruct s; reflexivity].
  - destruct s as [|d s]; simpl.
    + split; [discriminate | intros (rest & H); discriminate].
    + destruct (Ascii.ascii_dec c d) as [->|Hne].
      * rewrite IH. split; intros (rest & H); exists rest; congruence.
      * split; [discriminate | intros (rest & H); congruence].
Qed.

(** [contains] finds the text exactly when it occurs somewhere. *)
Lemma is_substring_app (sub s : string) :
  Sql.is_substring sub s = true <-> exists before after, s = before ++ sub ++ after.
Proof.
  induction s as [|d s IH].
  - cbn [Sql.is_substring]. rewrite orb_false_r, prefix_app. split.
    + intros (rest & H). exists "", rest. exact H.
    + intros (before & after & H). destruct before; [exists after; exact H|discriminate].
  - cbn [Sql.is_substring]. rewrite orb_true_iff, prefix_app, IH. split.
    + intros [(rest & H)|(before & after & H)].
      * exists "", rest. exact H.
      * exists (String d before), after. simpl. congruence.
    + intros (before & after & H). destruct before as [|b before].
      * left. exists after. exact H.
      * right. exists before, after. simpl in H. congruence.
Qed.

Lemma contains_true (c : option string) (sub : string) :
  Sql.contains c sub = Some true
  <-> exists before after, c = Some (before ++ sub ++ after).
Proof.
  destruct c as [s|]; simpl.
  - split.
    + intros [= H]. apply is_substring_app in H. destruct H as (b & a & ->). exists b, a.
      reflexivity.
    + intros (b & a & [= ->]). f_equal. apply is_substring_app. exists b, a. reflexivity.
  - split; [discriminate | intros (b & a & H); discriminate].
Qed.

Lemma licensed (c : option string) :
  Sql.not3 (Sql.isin c invalid_license) = Some true
  <-> exists cls, c = Some cls /\ cls <> "NA" /\ cls <> "UNLICENSED" /\ cls <> "UNKNOWN".
Proof.
  destruct c as [cls|]; simpl.
  - destruct (String.eqb_spec cls "NA"), (String.eqb_spec cls "UNLICENSED"),
      (String.eqb_spec cls "UNKNOWN"); simpl; split;
      try discriminate; try (intros (n' & [= <-] & H1 & H2 & H3); congruence).
    intros _. exists cls. auto.
  - split; [discriminate|]. intros (n' & H & _). discriminate.
Qed.

Lemma speeding_rows_In (units : list Unit.t) (charges : list Charge.t)
      (persons : list Person.t) (u : Unit.t) (c : Charge.t) (p : Person.t) :
  In ((u, c), p) (speeding_rows units charges persons)
  <-> In u units /\ In c charges /\ In p persons
      /\ (exists id, Unit.CRASH_ID u = Some id /\ Charge.CRASH_ID c = Some id
                     /\ Person.CRASH_ID p = Some id)
      /\ (exists before after, Charge.CHARGES c = Some (before ++ "SPEED" ++ after))
      /\ (exists cls, Person.DRVR_LIC_CLS_ID p = Some cls
                      /\ cls <> "NA" /\ cls <> "UNLICENSED" /\ cls <> "UNKNOWN")
      /\ In (Person.DRVR_LIC_STATE_ID p) (top_25_states_highest_offences persons)
      /\ Unit.VEH_COLOR_ID u <> None
      /\ In (Unit.VEH_COLOR_ID u) (top_10_colors units).
Proof.
  unfold speeding_rows, speeding_licensed.
  rewrite where_In, !inner_join_In, !and3_true, contains_true, licensed, !isin_true.
  cbn [fst snd]. split.
  - intros (((Hu & Hc & id & Hid1 & Hid2) & Hp & id' & Hid3 & Hid4)
            & ((Hsp & Hlic) & _ & Hst) & Hcol & Hcolin).
    repeat split; try assumption.
    exists id. rewrite Hid1 in Hid3. injection Hid3 as <-. auto.
  - intros (Hu & Hc & Hp & (id & H1 & H2 & H3) & Hsp & Hlic & Hst & Hcol & Hcolin).
    repeat split; try assumption; try (exists id; split; assumption).
    destruct (top_25_states_facts persons) as (_ & _ & Hvalid & _).
    destruct (Hvalid _ Hst) as ((name & Hname & _) & _). congruence.
Qed.

(** X6 — Analysis 8 returns at most five makes, none twice.  Each is the
    make of a unit that shares its crash with a charge whose text
    contains "SPEED" and with a person whose licence class is present and
    is none of "NA", "UNLICENSED", "UNKNOWN", whose licence state is one
    of the admitted states, the unit's colour being one of the admitted
    colours.  No make left out has more such rows than a make returned. *)
Theorem analysis_8_top_makes (units : list Unit.t) (charges : list Charge.t)
        (persons : list Person.t) :
  exists makes : list (option string),
    result_8 units charges persons
    = Py.VList (map (fun m => [("VEH_MAKE_ID", cell_of m)]) makes)
    /\ List.length makes <= 5
    /\ NoDup makes
    /\ (forall m, In m makes ->
          exists u c p,
            In u units /\ In c charges /\ In p persons
            /\ Unit.VEH_MAKE_ID u = m
            /\ (exists id, Unit.CRASH_ID u = Some id /\ Charge.CRASH_ID c = Some id
                           /\ Person.CRASH_ID p = Some id)
            /\ (exists before after, Charge.CHARGES c = Some (before ++ "SPEED" ++ after))
            /\ (exists cls, Person.DRVR_LIC_CLS_ID p = Some cls
                            /\ cls <> "NA" /\ cls <> "UNLICENSED" /\ cls <> "UNKNOWN")
            /\ In (Person.DRVR_LIC_STATE_ID p) (top_25_states_highest_offences persons)
            /\ Unit.VEH_COLOR_ID u <> None
            /\ In (Unit.VEH_COLOR_ID u) (top_10_colors units))
    /\ (forall m m', In m makes -> ~ In m' makes ->
          (make_crashes units charges persons m'
           <= make_crashes units charges persons m)%Z).
Proof.
  destruct (top_keys_spec Sql.cell_eqb cell_eqb_eq
              (fun ucp : (Unit.t * Charge.t) * Person.t => Unit.VEH_MAKE_ID (fst (fst ucp)))
              (fun ucp => Sql.not_null (Unit.CRASH_ID (fst (fst ucp))))
              (speeding_rows units charges persons) 5) as (Hlen & Hnd & Hrow & Hmax).
  eexists. split.
  { unfold result_8. rewrite top_rows_of_keys. reflexivity. }
  split; [exact Hlen|]. split; [exact Hnd|]. split; [|exact Hmax].
  intros m Hm. destruct (Hrow m Hm) as ([[u c] p] & Hin & Hkey).
  apply speeding_rows_In in Hin. exists u, c, p. simpl in Hkey. tauto.
Qed.

(** X7 — Without a charge whose text contains "SPEED" (in particular
    with an empty Charge relation) analysis 8 returns the empty list. *)
Theorem analysis_8_without_speeding (units : list Unit.t) (charges : list Charge.t)
        (persons : list Person.t) :
  (forall c, In c charges -> Sql.contains (Charge.CHARGES c) "SPEED" <> Some true) ->
  result_8 units charges persons = Py.VList [].
Proof.
  intros Hno.
  assert (Hempty : speeding_rows units charges persons = []).
  { destruct (speeding_rows units charges persons) as [|[[u c] p] rest] eqn:E;
      [reflexivity|].
    assert (Hin : In ((u, c), p) (speeding_rows units charges persons))
      by (rewrite E; left; reflexivity).
    apply speeding_rows_In in Hin.
    destruct Hin as (_ & Hc & _ & _ & Hsp & _).
    exfalso. apply (Hno c Hc). apply contains_true. exact Hsp. }
  unfold result_8, make_counts. fold (speeding_rows units charges persons).
  rewrite Hempty. reflexivity.
Qed.

Lemma analysis_8_without_speeding_witness :
  result_8 sample_units [Charge.mk (Some "1") (Some "DRIVING WHILE INTOXICATED")]
           sample_persons
  = Py.VList [].
Proof.
  apply analysis_8_without_speeding.
  intros c [<-|[]]. vm_compute. discriminate.
Defined.

(* ------------------------------------------------------------------ *)
(** ** Analysis 7: what the collected rows are *)

Section DistinctFacts.

Context {K : Type} (eqb : K -> K -> bool).
Hypothesis eqb_eq : forall a b, eqb a b = true <-> a = b.

Lemma distinct_In (l : list K) (x : K) : In x (Sql.distinct eqb l) <-> In x l.
Proof.
  induction l as [|y l IH]; simpl; [tauto|].
  rewrite filter_In, IH. split.
  - intros [H|[H _]]; auto.
  - intros [H|H]; [left; exact H|].
    destruct (eqb y x) eqn:E.
    + left. apply eqb_eq, E.
    + right. split; [exact H | reflexivity].
Qed.

Lemma distinct_NoDup (l : list K) : NoDup (Sql.distinct eqb l).
Proof.
  induction l as [|y l IH]; simpl; constructor.
  - rewrite filter_In. intros [_ H]. rewrite (proj2 (eqb_eq y y) eq_refl) in H. discriminate.
  - apply NoDup_filter, IH.
Qed.

Lemma filter_twice {A} (f : A -> bool) (l : list A) : filter f (filter f l) = filter f l.
Proof.
  induction l as [|x l IH]; simpl; [reflexivity|].
  destruct (f x) eqn:E; simpl; rewrite ?E, IH; reflexivity.
Qed.

(** Repeating the first row does not change the distinct rows. *)
Lemma distinct_repeat (x : K) (k : nat) (l : list K) :
  Sql.distinct eqb (repeat x (S k) ++ l) = Sql.distinct eqb (x :: l).
Proof.
  induction k as [|k IH]; [reflexivity|].
  change (repeat x (S (S k)) ++ l)%list with (x :: (repeat x (S k) ++ l))%list.
  cbn [Sql.distinct]. rewrite IH. cbn [Sql.distinct filter].
  rewrite (proj2 (eqb_eq x x) eq_refl). cbn [negb]. rewrite filter_twice. reflexivity.
Qed.

End DistinctFacts.

(** The right rows a left row is joined with: one absent row when
    nothing matches. *)
Lemma left_join_cons {L R} (kl : L -> option string) (kr : R -> option string)
      (l : L) (ls : list L) (rs : list R) :
  exists k, Sql.left_join kl kr (l :: ls) rs
            = (map (pair l) (match filter (fun r => Sql.key_match (kl l) (kr r)) rs with
                             | [] => [None]
                             | matched => map Some matched
                             end) ++ Sql.left_join kl kr ls rs)%list
            /\ List.length (match filter (fun r => Sql.key_match (kl l) (kr r)) rs with
                            | [] => [None]
                            | matched => map Some matched
                            end) = S k.
Proof.
  unfold Sql.left_join. cbn [flat_map].
  destruct (filter (fun r => Sql.key_match (kl l) (kr r)) rs) as [|r matched].
  - exists 0. split; reflexivity.
  - exists (List.length matched). split; [|simpl; rewrite length_map; reflexivity].
    f_equal. simpl. f_equal. rewrite map_map. reflexivity.
Qed.

Lemma crash_ids_of_block (b : bool) (u : Unit.t) (ds : list (option Damage.t)) :
  map (fun ud : Unit.t * option Damage.t => Unit.CRASH_ID (fst ud))
      (Sql.where_ (high_damage_insured b) (map (pair u) ds))
  = if Sql.holds (high_damage_insured b (u, None))
    then repeat (Unit.CRASH_ID u) (List.length ds) else [].
Proof.
  unfold Sql.where_.
  induction ds as [|d ds IH]; simpl.
  - destruct (Sql.holds (high_damage_insured b (u, None))); reflexivity.
  - change (high_damage_insured b (u, d)) with (high_damage_insured b (u, None)).
    destruct (Sql.holds (high_damage_insured b (u, None))) eqn:E; simpl; rewrite IH;
      reflexivity.
Qed.

(** The crash ids analysis 7 collects do not depend on the Damage
    relation: the join only repeats a unit, and [distinct] undoes it. *)
Lemma crash_ids_ignore_damages (b : bool) (units : list Unit.t) (damages : list Damage.t) :
  Sql.distinct Sql.cell_eqb
    (map (fun ud : Unit.t * option Damage.t => Unit.CRASH_ID (fst ud))
         (Sql.where_ (high_damage_insured b)
                     (Sql.left_join Unit.CRASH_ID Damage.CRASH_ID units damages)))
  = Sql.distinct Sql.cell_eqb
      (map Unit.CRASH_ID
           (filter (fun u => Sql.holds (high_damage_insured b (u, None))) units)).
Proof.
  induction units as [|u units IH]; [reflexivity|].
  destruct (left_join_cons Unit.CRASH_ID Damage.CRASH_ID u units damages) as (k & -> & Hk).
  unfold Sql.where_ in *. rewrite filter_app, map_app.
  fold (Sql.where_ (high_damage_insured b)
                   (map (pair u)
                        match filter (fun r => Sql.key_match (Unit.CRASH_ID u) (Damage.CRASH_ID r))
                                     damages with
                        | [] => [None]
                        | matched => map Some matched
                        end)).
  rewrite crash_ids_of_block, Hk. cbn [filter].
  destruct (Sql.holds (high_damage_insured b (u, None))).
  - rewrite (distinct_repeat Sql.cell_eqb cell_eqb_eq). cbn [map Sql.distinct].
    rewrite IH. reflexivity.
  - exact IH.
Qed.

(** X8 — Analysis 7 never looks at the Damage relation: whatever it
    holds, the result (or the exception) is the one obtained with no
    damage record at all. *)
Theorem analysis_7_ignores_damages (op : operand) (units : list Unit.t)
        (damages : list Damage.t) :
  result_7 op units damages = result_7 op units [].
Proof.
  unfold result_7. destruct op as [e|b]; [reflexivity|].
  rewrite !crash_ids_ignore_damages. reflexivity.
Qed.

Lemma neq_lit_true (c : option string) (lit : string) :
  Sql.neq_lit c lit = Some true <-> exists s, c = Some s /\ s <> lit.
Proof.
  destruct c as [s|]; simpl.
  - destruct (String.eqb_spec s lit); simpl; split; try discriminate.
    + intros (s' & [= <-] & H). contradiction.
    + intros _. exists s. auto.
    + intros _. reflexivity.
  - split; [discriminate | intros (s & H & _); discriminate].
Qed.

(* ------------------------------------------------------------------ *)
(** ** Analysis 5: the grouped rows *)

Lemma tally_positive {R K} (eqb : K -> K -> bool) (key : R -> K) (counted : R -> bool)
      (k : K) (rows : list R) (r : R) :
  In r rows -> eqb (key r) k = true -> counted r = true ->
  (1 <= tally eqb key counted k rows)%Z.
Proof.
  intros Hin Hk Hc. unfold tally, Sql.count.
  assert (H : In r (filter (fun r => eqb (key r) k && counted r) rows)).
  { apply filter_In. split; [exact Hin|]. rewrite Hk, Hc. reflexivity. }
  destruct (filter (fun r => eqb (key r) k && counted r) rows); [destruct H|].
  simpl. lia.
Qed.

Lemma tally_uncounted {R K} (eqb : K -> K -> bool) (key : R -> K) (counted : R -> bool)
      (k : K) (rows : list R) :
  (forall r, In r rows -> eqb (key r) k = true -> counted r = false) ->
  tally eqb key counted k rows = 0%Z.
Proof.
  intros H. unfold tally, Sql.count.
  induction rows as [|r rows IH]; [reflexivity|]. simpl.
  destruct (eqb (key r) k) eqn:E; simpl.
  - rewrite (H r (or_introl eq_refl) E). apply IH. intros r' Hr'. apply H. right. exact Hr'.
  - apply IH. intros r' Hr'. apply H. right. exact Hr'.
Qed.

(** X10 — Analysis 5 returns one row per (body style, ethnicity) pair
    that occurs among the units and persons of a same crash, no pair
    twice.  [ethn_count] is at least 1 for a pair with an ethnicity, and
    0 for a pair whose ethnicity is NULL. *)
Theorem analysis_5_groups (units : list Unit.t) (persons : list Person.t) :
  exists groups : list ((option string * option string) * Z),
    result_5 units persons = Py.VList (map ethnicity_row groups)
    /\ NoDup (map fst groups)
    /\ (forall u p id, In u units -> In p persons ->
                       Unit.CRASH_ID u = Some id -> Person.CRASH_ID p = Some id ->
                       In (Unit.VEH_BODY_STYL_ID u, Person.PRSN_ETHNICITY_ID p)
                          (map fst groups))
    /\ forall style ethnicity n,
        In ((style, ethnicity), n) groups ->
        (exists u p id, In u units /\ In p persons
                        /\ Unit.CRASH_ID u = Some id /\ Person.CRASH_ID p = Some id
                        /\ Unit.VEH_BODY_STYL_ID u = style
                        /\ Person.PRSN_ETHNICITY_ID p = ethnicity)
        /\ (ethnicity = None -> n = 0%Z)
        /\ (ethnicity <> None -> (1 <= n)%Z).
Proof.
  exists (ethnicity_counts units persons). split; [reflexivity|].
  destruct (group_count_grouped pair_eqb pair_eqb_eq
              (fun up : Unit.t * Person.t =>
                 (Unit.VEH_BODY_STYL_ID (fst up), Person.PRSN_ETHNICITY_ID (snd up)))
              (fun up => Sql.not_null (Person.PRSN_ETHNICITY_ID (snd up)))
              (Sql.inner_join Unit.CRASH_ID Person.CRASH_ID units persons))
    as (Hnd & Hcount & Hkeys).
  fold (ethnicity_counts units persons) in Hnd, Hcount, Hkeys.
  split; [exact Hnd|]. split.
  - intros u p id Hu Hp Hidu Hidp.
    apply (Hkeys (u, p)). apply inner_join_In. split; [exact Hu|]. split; [exact Hp|].
    exists id. split; assumption.
  - intros style ethnicity n Hin.
    destruct (Hcount _ _ Hin) as [Hn ([u p] & Hrow & Hkey)].
    apply inner_join_In in Hrow. destruct Hrow as (Hu & Hp & id & Hidu & Hidp).
    simpl in Hkey. injection Hkey as Hstyle Heth.
    split; [exists u, p, id; repeat split; assumption|]. split.
    + intros ->. rewrite Hn. apply tally_uncounted.
      intros [u' p'] _ Hk. apply pair_eqb_eq in Hk. simpl in Hk.
      injection Hk as _ Hk. simpl. rewrite Hk. reflexivity.
    + intros Hsome. rewrite Hn. apply (tally_positive _ _ _ _ _ (u, p)).
      * apply inner_join_In. split; [exact Hu|]. split; [exact Hp|].
        exists id. split; assumption.
      * apply pair_eqb_eq. simpl. congruence.
      * simpl. rewrite Heth. destruct ethnicity; [reflexivity|contradiction].
Qed.

(* ------------------------------------------------------------------ *)
(** ** Analysis 4: how many rows *)

Lemma units_5_to_15_slice (coerce : string -> option Z) (units : list Unit.t) :
  units_5_to_15 coerce units
  = firstn 11 (skipn 4 (Sql.orderBy_desc (injurySeverity coerce) units)).
Proof.
  unfold units_5_to_15, Sql.row_number_desc, top_15_units, Sql.limit.
  rewrite (orderBy_desc_sorted_id _ _
             (Sorted_firstn _ 15 _ (orderBy_desc_Sorted (injurySeverity coerce) units))).
  rewrite window_5_to_15 by apply firstn_le_length.
  rewrite (firstn_skipn_comm 11 4). reflexivity.
Qed.

(** X11 — Analysis 4 returns exactly [min 11 (n - 4)] rows for [n]
    units: nothing for up to four units, one row per unit beyond the
    fourth, and never more than eleven. *)
Theorem analysis_4_row_count (coerce : string -> option Z) (units : list Unit.t) :
  exists rows : list Py.Row,
    result_4 coerce units = Py.VList rows
    /\ List.length rows = Nat.min 11 (List.length units - 4).
Proof.
  eexists. split; [reflexivity|].
  rewrite length_map, units_5_to_15_slice, length_firstn, length_skipn, orderBy_desc_length.
  reflexivity.
Qed.

(* ------------------------------------------------------------------ *)
(** ** Analyses 1 and 2: counts *)

Lemma where_Permutation {R} (cond : R -> option bool) (l l' : list R) :
  Permutation l l' -> Permutation (Sql.where_ cond l) (Sql.where_ cond l').
Proof.
  unfold Sql.where_. induction 1 as [|x l l' _ IH|x y l|l l' l'' _ IH1 _ IH2]; simpl.
  - constructor.
  - destruct (Sql.holds (cond x)); [apply perm_skip|]; exact IH.
  - destruct (Sql.holds (cond x)), (Sql.holds (cond y));
      try apply perm_swap; apply Permutation_refl.
  - exact (perm_trans IH1 IH2).
Qed.

Lemma where_length {R} (cond : R -> option bool) (l : list R) :
  List.length (Sql.where_ cond l) <= List.length l.
Proof. apply filter_length_le. Qed.

(** X12 — Analyses 1 and 2 do not depend on the order of the rows, and
    their counts lie between 0 and the number of rows of the relation. *)
Theorem counts_ignore_row_order (coerce : string -> option Z)
        (persons persons' : list Person.t) (units units' : list Unit.t) :
  Permutation persons persons' ->
  Permutation units units' ->
  result_1 coerce persons = result_1 coerce persons'
  /\ result_2 units = result_2 units'
  /\ (exists n, result_1 coerce persons = Py.VInt n
                /\ (0 <= n <= Z.of_nat (List.length persons))%Z)
  /\ (exists n, result_2 units = Py.VInt n
                /\ (0 <= n <= Z.of_nat (List.length units))%Z).
Proof.
  intros Hp Hu. unfold result_1, result_2, Sql.count.
  rewrite (Permutation_length (where_Permutation (killed_male coerce) _ _ Hp)).
  rewrite (Permutation_length (where_Permutation two_wheeler _ _ Hu)).
  split; [reflexivity|]. split; [reflexivity|].
  split; eexists; (split; [reflexivity|]).
  - pose proof (where_length (killed_male coerce) persons'). 
    rewrite (Permutation_length Hp). lia.
  - pose proof (where_length two_wheeler units').
    rewrite (Permutation_length Hu). lia.
Qed.

Lemma counts_ignore_row_order_witness :
  result_1 decimal two_males = result_1 decimal (rev two_males)
  /\ result_2 three_body_styles = result_2 (rev three_body_styles)
  /\ (exists n, result_1 decimal two_males = Py.VInt n
                /\ (0 <= n <= Z.of_nat (List.length two_males))%Z)
  /\ (exists n, result_2 three_body_styles = Py.VInt n
                /\ (0 <= n <= Z.of_nat (List.length three_body_styles))%Z).
Proof.
  apply counts_ignore_row_order; apply Permutation_rev.
Defined.

(* ------------------------------------------------------------------ *)
(** ** Failures of a run *)

(** X14 — When analysis 3 or analysis 7 raises, the run raises that
    exception, prints its diagnostic and nothing else, and leaves every
    file as it was: no report is written, an earlier one is not removed. *)
Theorem analysis_error_aborts_run (coerce : string -> option Z) (isNull_attribute : operand)
        (o : CarCrashAnalysis) (w : World) (e : Py.exn) :
  result_3 (primary_person_use_df o) = inl e
  \/ ((exists r3, result_3 (primary_person_use_df o) = inr r3)
      /\ result_7 isNull_attribute (units_use_df o) (damages_use_df o) = inl e) ->
  fst (main coerce isNull_attribute o w) = inl e
  /\ files (world (snd (main coerce isNull_attribute o w))) = files w
  /\ stdout (world (snd (main coerce isNull_attribute o w)))
     = (stdout w ++ [diagnostic e])%list.
Proof.
  intros H. unfold main, execute_analysis, try_except.
  destruct o as [path ch dm en pp rs un out]. unfold_run.
  destruct H as [H3|[[r3 H3] H7]]; rewrite H3; try rewrite H7;
    destruct e; unfold print, raise; simpl; auto.
Qed.

Lemma analysis_error_aborts_run_witness :
  fst (main decimal (Raises (Py.IllegalArgumentException "bad operand"))
            (new_CarCrashAnalysis "out.txt" sample_charges sample_damages []
                                  sample_persons [] sample_units)
            world_with_old_report)
  = inl (Py.IllegalArgumentException "bad operand")
  /\ files (world (snd (main decimal (Raises (Py.IllegalArgumentException "bad operand"))
            (new_CarCrashAnalysis "out.txt" sample_charges sample_damages []
                                  sample_persons [] sample_units)
            world_with_old_report)))
     = files world_with_old_report
  /\ stdout (world (snd (main decimal (Raises (Py.IllegalArgumentException "bad operand"))
            (new_CarCrashAnalysis "out.txt" sample_charges sample_damages []
                                  sample_persons [] sample_units)
            world_with_old_report)))
     = (stdout world_with_old_report
        ++ [diagnostic (Py.IllegalArgumentException "bad operand")])%list.
Proof.
  apply analysis_error_aborts_run. right. split; [eexists|]; reflexivity.
Defined.

(* ------------------------------------------------------------------ *)
(** ** The sink, once more *)

(** X15 — [write_to_file] touches the output path and the console only:
    every other file keeps its content, and the object, its report text
    included, is left as it was, whether the write succeeds or fails. *)
Theorem write_to_file_frame (st : State) (q : string) :
  q <> _output_file_path (self st) ->
  files (world (snd (write_to_file st))) q = files (world st) q
  /\ self (snd (write_to_file st)) = self st.
Proof.
  intros Hq.
  destruct (remove_file_returns (_output_file_path (self st)) st)
    as (st' & Hrm & Hself & _ & Hopen & Hwrite & Hfiles).
  unfold write_to_file, try_except, bind, get_self. rewrite Hrm.
  unfold open_and_write. rewrite Hself, Hopen, Hwrite.
  destruct (open_error (world st) (_output_file_path (self st))) as [e|].
  - unfold print, raise. simpl. split; [apply Hfiles, Hq | first [exact Hself | reflexivity]].
  - destruct (write_error (world st) (_output_file_path (self st))) as [e|];
      unfold print, raise, set_files, update; simpl;
      (destruct (String.eqb_spec q (_output_file_path (self st))); [contradiction|]);
      (split; [apply Hfiles, Hq | first [exact Hself | reflexivity]]).
Qed.

Lemma write_to_file_frame_witness :
  files (world (snd (write_to_file (mkState object_with_report world_with_old_report))))
        "notes.txt"
  = files world_with_old_report "notes.txt"
  /\ self (snd (write_to_file (mkState object_with_report world_with_old_report)))
     = object_with_report.
Proof.
  apply (write_to_file_frame (mkState object_with_report world_with_old_report) "notes.txt").
  discriminate.
Defined.

(** X16 — The delete is not undone: when the earlier report has been
    removed and [open] then fails, [write_to_file] raises the error of
    [open] and no file is left at the output path. *)
Theorem failed_open_loses_old_report (st : State) (e : Py.exn) :
  remove_error (world st) (_output_file_path (self st)) = None ->
  open_error (world st) (_output_file_path (self st)) = Some e ->
  fst (write_to_file st) = inl e
  /\ files (world (snd (write_to_file st))) (_output_file_path (self st)) = None.
Proof.
  intros Hr Ho.
  pose proof (remove_file_deletes (_output_file_path (self st)) st Hr) as Hgone.
  destruct (remove_file_returns (_output_file_path (self st)) st)
    as (st' & Hrm & Hself & _ & Hopen & _).
  rewrite Hrm in Hgone. simpl in Hgone.
  unfold write_to_file, try_except, bind, get_self. rewrite Hrm.
  unfold open_and_write. rewrite Hself, Hopen, Ho.
  unfold print, raise. simpl. split; [reflexivity | exact Hgone].
Qed.

Lemma failed_open_loses_old_report_witness :
  fst (write_to_file
         (mkState object_with_report
            (mkWorld (files world_with_old_report) [] (fun _ => None)
                     (fun _ => Some (Py.OSError "Permission denied")) (fun _ => None))))
  = inl (Py.OSError "Permission denied")
  /\ files (world (snd (write_to_file
         (mkState object_with_report
            (mkWorld (files world_with_old_report) [] (fun _ => None)
                     (fun _ => Some (Py.OSError "Permission denied")) (fun _ => None))))))
           "out.txt"
     = None.
Proof.
  apply (failed_open_loses_old_report
           (mkState object_with_report
              (mkWorld (files world_with_old_report) [] (fun _ => None)
                       (fun _ => Some (Py.OSError "Permission denied")) (fun _ => None))));
    reflexivity.
Defined.

(** X17 — The last line [write_to_file] prints tells its outcome: the
    success message with the path when it returns, the error message with
    the text of the exception when it raises. *)
Theorem write_to_file_last_line (st : State) :
  let last :=
    match fst (write_to_file st) with
    | inr _ => "Output is successfully saved at the path: " ++ _output_file_path (self st)
    | inl e => "Error occurred while writing output to file: " ++ Py.exn_str e
    end in
  exists earlier : list string,
    stdout (world (snd (write_to_file st))) = (earlier ++ [last])%list.
Proof.
  cbv zeta.
  destruct (remove_file_returns (_output_file_path (self st)) st)
    as (st' & Hrm & Hself & _ & Hopen & Hwrite & _).
  unfold write_to_file, try_except, bind, get_self. rewrite Hrm.
  unfold open_and_write. rewrite Hself, Hopen, Hwrite.
  destruct (open_error (world st) (_output_file_path (self st))) as [e|].
  - unfold print, raise. simpl. eexists. reflexivity.
  - destruct (write_error (world st) (_output_file_path (self st))) as [e|];
      unfold print, raise, set_files; simpl; eexists; reflexivity.
Qed.

(* ------------------------------------------------------------------ *)
(** ** Runs that stop at analysis 7, and the entry of analysis 8 *)



(** X13 — With the un-called [isNull] rejected, as it is, no run
    completes: [execute_analysis] raises the [IndexError] of analysis 3
    when that analysis raises and the exception of analysis 7 otherwise,
    prints the diagnostic of that exception and nothing else, and leaves
    every file as it was; [write_to_file] is never reached. *)
Theorem run_never_completes (coerce : string -> option Z) (e : Py.exn)
        (o : CarCrashAnalysis) (w : World) :
  let run := main coerce (Raises e) o w in
  let raised := match result_3 (primary_person_use_df o) with
                | inl e3 => e3
                | inr _ => e
                end in
  fst run = inl raised
  /\ files (world (snd run)) = files w
  /\ stdout (world (snd run)) = (stdout w ++ [diagnostic raised])%list.
Proof.
  cbv zeta. unfold main, execute_analysis, try_except, result_7.
  destruct o as [path ch dm en pp rs un out]. unfold_run.
  destruct (result_3 pp) as [e3|r3].
  - destruct e3; unfold print, raise; simpl; auto.
  - destruct e; unfold print, raise; simpl; auto.
Qed.




(** X9 — The entry [determine_top_5_vehicle_makes] appends spans three
    newline-terminated lines, whatever the relations hold: the first two
    are the first two source lines of its triple-quoted label, and the
    third begins with the eight blanks of the source indentation. *)
Theorem analysis_8_entry_spans_three_lines (st : State) :
  let o := self st in
  let res := Py.format_res (result_8 (units_use_df o) (charges_use_df o)
                                     (primary_person_use_df o)) in
  exists text : string,
    determine_top_5_vehicle_makes st
    = (inr tt, mkState (with_output o (_output o ++ text)) (world st))
    /\ Py.lines text = [label_8_line_1; label_8_line_2; label_8_line_3 ++ res]
    /\ Py.count_newlines text = 3.
Proof.
  cbv zeta.
  exists (label_8
          ++ Py.format_res (result_8 (units_use_df (self st)) (charges_use_df (self st))
                                     (primary_person_use_df (self st)))
          ++ Py.NL).
  split; [reflexivity|].
  pose proof (plain_format_res _ (plain_result_8 (units_use_df (self st))
                                    (charges_use_df (self st))
                                    (primary_person_use_df (self st)))) as P8.
  unfold label_8, Py.NL.
  repeat first [rewrite !append_assoc | progress cbn [append]].
  split.
  - unfold Py.lines.
    rewrite (lines_from_plain label_8_line_1) by reflexivity.
    rewrite (lines_from_plain label_8_line_2) by reflexivity.
    rewrite lines_entry by (assumption || reflexivity).
    reflexivity.
  - unfold Py.plain in P8.
    repeat first [rewrite count_newlines_append
                 | progress cbn [Py.count_newlines]; rewrite ?Ascii.eqb_refl].
    rewrite P8. reflexivity.
Qed.
